(** * chromadb.api.client: the shared System registry and the client proxies

    A shallow embedding of [src/chromadb/api/client.py]: the class-level
    dictionary [_identifer_to_system] of [SharedSystemClient], the
    derivation of identifiers from [Settings], and the [Client] and
    [AdminClient] proxies that forward their calls to the [ServerAPI]
    component of a shared [System].

    Python statements become computations in a state-and-exception monad
    [M].  The collaborators owned elsewhere ([System], [Telemetry],
    [ServerAPI]) are an oracle [External] that answers every call made on
    them, by a value or by an exception, as a function of the calls made so
    far; each such call is appended to a log kept in the state. *)

From stdpp Require Import base strings gmap list pretty.
From Stdlib Require Import ZArith.

Local Open Scope string_scope.
Local Open Scope list_scope.
Local Open Scope nat_scope.

(** ** Values *)

(** Values of the configuration fields whose type the sources do not fix
    ([None], a [str] or an [int]).  Python's [==] on these is structural. *)
Inductive PyVal : Type :=
  | PyNone
  | PyStr (s : string)
  | PyInt (z : Z).

#[global] Instance PyVal_eq_dec : EqDecision PyVal.
Proof. solve_decision. Defined.

(** [str(v)], which is what an f-string replacement field [{v}] inserts. *)
Definition format_value (v : PyVal) : string :=
  match v with
  | PyNone => "None"
  | PyStr s => s
  | PyInt z => pretty z
  end.

(** Arguments and results of the forwarded calls.  [VObj] is an object the
    proxies only pass along (a UUID, an embedding function, a Collection),
    known by its identity. *)
#[local] Unset Elimination Schemes.
Inductive Value : Type :=
  | VNone
  | VBool (b : bool)
  | VInt (z : Z)
  | VStr (s : string)
  | VList (items : list Value)
  | VDict (items : list (Value * Value))
  | VObj (id : nat).
#[local] Set Elimination Schemes.

(** Modelled from the spec: the declaration of [Settings] (chromadb.config)
    is not among the sources.  The record has the five fields that
    client.py reads (backend kind, persistence flag, persist path, remote
    host and port) and the remaining options as a finite map; equality of
    two settings is equality of all their fields. *)
Record Settings : Type := {
  chroma_api_impl : option string;
  is_persistent : bool;
  persist_directory : string;
  chroma_server_host : PyVal;
  chroma_server_http_port : PyVal;
  other_options : gmap string PyVal
}.

#[global] Instance Settings_eq_dec : EqDecision Settings.
Proof. solve_decision. Defined.

(** A [System] object: its identity (the number of [System] objects
    created before it) and the settings it was built from. *)
Record System : Type := {
  oid : nat;
  settings : Settings
}.

#[global] Instance System_eq_dec : EqDecision System.
Proof. solve_decision. Defined.

(** ** Exceptions *)

Inductive Exn : Type :=
  | ValueError (msg : string)
  | KeyError (key : string)
  | BackendError (code : nat).

#[global] Instance Exn_eq_dec : EqDecision Exn.
Proof. solve_decision. Defined.

(** The three [ValueError]s that client.py raises itself.  The specification
    calls them ConfigurationError, UnsupportedImplementationError and
    SettingsConflictError. *)
Definition ConfigurationError : Exn :=
  ValueError "Chroma API implementation must be set in settings".

Definition UnsupportedImplementationError (api_impl : string) : Exn :=
  ValueError ("Unsupported Chroma API implementation " +:+ api_impl).

Definition SettingsConflictError (identifier : string) : Exn :=
  ValueError ("An instance of Chroma already exists for " +:+ identifier
              +:+ " with different settings").

(** ** Calls on the external collaborators *)

Inductive Capability : Type := Telemetry | ServerAPI.

#[global] Instance Capability_eq_dec : EqDecision Capability.
Proof. solve_decision. Defined.

(** One constructor per kind of call that client.py makes on an object it
    does not define.  A [System] is named by its [oid]; a component by the
    [oid] of the system that resolved it. *)
Inductive Call : Type :=
  | System_new (settings : Settings)
  | System_instance (system : nat) (type : Capability)
  | System_start (system : nat)
  | Telemetry_capture (system : nat) (event : string)
  | ServerAPI_call (system : nat) (method : string)
      (kwargs : list (string * Value))
  | ServerAPI_getattr (system : nat) (name : string).

(** The answer to a call, given the calls made before it. *)
Record External : Type := {
  respond : list Call → Call → Exn + Value
}.

(** ** Program state *)

(** [_identifer_to_system] is the class attribute of [SharedSystemClient];
    [allocated] counts the [System] objects constructed so far and [log]
    lists the calls made on the collaborators, oldest first. *)
Record State : Type := {
  _identifer_to_system : gmap string System;
  allocated : nat;
  log : list Call
}.

Definition initial_state : State :=
  {| _identifer_to_system := ∅; allocated := 0; log := [] |}.

Definition set_registry (reg : gmap string System) (st : State) : State :=
  {| _identifer_to_system := reg; allocated := allocated st; log := log st |}.

Definition set_allocated (n : nat) (st : State) : State :=
  {| _identifer_to_system := _identifer_to_system st; allocated := n;
     log := log st |}.

Definition append_log (c : Call) (st : State) : State :=
  {| _identifer_to_system := _identifer_to_system st;
     allocated := allocated st; log := log st ++ [c] |}.

(** ** The monad of statements *)

Inductive Result (A : Type) : Type :=
  | Ok (a : A) (st : State)
  | Raise (e : Exn) (st : State).
Arguments Ok {A} a st.
Arguments Raise {A} e st.

Definition M (A : Type) : Type := State → Result A.

Definition state_of {A} (r : Result A) : State :=
  match r with Ok _ st => st | Raise _ st => st end.

Definition returned {A} (r : Result A) : option A :=
  match r with Ok a _ => Some a | Raise _ _ => None end.

Definition raised {A} (r : Result A) : option Exn :=
  match r with Ok _ _ => None | Raise e _ => Some e end.

#[global] Instance M_ret : MRet M := λ A a st, Ok a st.

#[global] Instance M_bind : MBind M := λ A B f m st,
  match m st with
  | Ok a st' => f a st'
  | Raise e st' => Raise e st'
  end.

Definition raise {A} (e : Exn) : M A := λ st, Raise e st.

Definition get_state : M State := λ st, Ok st st.

Definition modify (f : State → State) : M unit := λ st, Ok () (f st).

(** A pure computation that may raise, run inside [M]. *)
Definition lift {A} (r : Exn + A) : M A :=
  match r with inl e => raise e | inr a => mret a end.

(** A call on a collaborator: logged, then answered by the oracle. *)
Definition call (ext : External) (c : Call) : M Value := λ st,
  match respond ext (log st) c with
  | inl e => Raise e (append_log c st)
  | inr v => Ok v (append_log c st)
  end.

(** ** class SharedSystemClient *)

Module SharedSystemClient.

(** The instance attribute set by [__init__]. *)
Record t : Type := { _identifier : string }.

Definition _get_identifier_from_settings (settings : Settings)
  : Exn + string :=
  let api_impl := chroma_api_impl settings in
  match api_impl with
  | None => inl ConfigurationError
  | Some api_impl =>
      if bool_decide (api_impl = "chromadb.api.segment.SegmentAPI") then
        if is_persistent settings then inr (persist_directory settings)
        else inr "ephemeral"
      else if bool_decide (api_impl = "chromadb.api.fastapi.FastAPI") then
        inr (format_value (chroma_server_host settings) +:+ ":"
             +:+ format_value (chroma_server_http_port settings))
      else inl (UnsupportedImplementationError api_impl)
  end.

(** The expression [cls._identifer_to_system[identifier]]. *)
Definition getitem (identifier : string) : M System := λ st,
  match _identifer_to_system st !! identifier with
  | Some system => Ok system st
  | None => Raise (KeyError identifier) st
  end.

(** The statement [cls._identifer_to_system[identifier] = system]. *)
Definition setitem (identifier : string) (system : System) : M unit :=
  modify (λ st,
    set_registry (<[identifier := system]> (_identifer_to_system st)) st).

Section methods.
Context (ext : External).

(** [System(settings)]: the constructor is asked first; when it returns,
    the new object gets the next identity. *)
Definition System__init__ (settings : Settings) : M System :=
  _ ← call ext (System_new settings);
  st ← get_state;
  modify (set_allocated (S (allocated st)));;
  mret {| oid := allocated st; settings := settings |}.

Definition _create_system_if_not_exists (identifier : string)
    (settings' : Settings) : M System :=
  st ← get_state;
  match _identifer_to_system st !! identifier with
  | None =>
      new_system ← System__init__ settings';
      setitem identifier new_system;;
      call ext (System_instance (oid new_system) Telemetry);;
      call ext (System_instance (oid new_system) ServerAPI);;
      call ext (System_start (oid new_system));;
      getitem identifier
  | Some previous_system =>
      if bool_decide (settings previous_system ≠ settings') then
        raise (SettingsConflictError identifier)
      else getitem identifier
  end.

Definition __init__ (settings : Settings) : M t :=
  identifier ← lift (_get_identifier_from_settings settings);
  _create_system_if_not_exists identifier settings;;
  mret {| _identifier := identifier |}.

End methods.

Definition clear_system_cache : M unit :=
  modify (set_registry ∅).

(** The property [_system]. *)
Definition _system (self : t) : M System :=
  getitem (_identifier self).

End SharedSystemClient.

(** ** Values fixed when the module is imported *)

(** Modelled from the spec: [DEFAULT_TENANT], [DEFAULT_DATABASE]
    (chromadb.config) and [ef.DefaultEmbeddingFunction]
    (chromadb.utils.embedding_functions) are not among the sources, so the
    values they have when client.py is imported are parameters.  A default
    of a parameter is evaluated once, when its [def] is executed: the three
    [embedding_function] fields are the results of the three expressions
    [ef.DefaultEmbeddingFunction()] in the signatures of [create_collection],
    [get_collection] and [get_or_create_collection]. *)
Record Globals : Type := {
  DEFAULT_TENANT : string;
  DEFAULT_DATABASE : string;
  create_collection__embedding_function : Value;
  get_collection__embedding_function : Value;
  get_or_create_collection__embedding_function : Value
}.

(** An optional parameter: [None] when the caller omits the argument. *)
Definition or_default (d : Value) (arg : option Value) : Value :=
  default d arg.

(** ** class Client *)

Module Client.

(** The attributes of an instance: [_identifier] is inherited (field
    [super]), [_server] names the [ServerAPI] component by the [oid] of the
    system it was resolved from. *)
Record t : Type := {
  super : SharedSystemClient.t;
  tenant : string;
  database : string;
  _server : nat
}.

Definition _system (self : t) : M System :=
  SharedSystemClient._system (super self).

Section methods.
Context (ext : External) (g : Globals).

Definition __init__ (tenant database : option string)
    (settings : Settings) : M t :=
  let tenant := default "default" tenant in
  let database := default "default" database in
  base ← SharedSystemClient.__init__ ext settings;
  system ← SharedSystemClient._system base;
  call ext (System_instance (oid system) ServerAPI);;
  system' ← SharedSystemClient._system base;
  call ext (System_instance (oid system') Telemetry);;
  call ext (Telemetry_capture (oid system') "ClientStartEvent");;
  mret {| super := base; tenant := tenant; database := database;
          _server := oid system |}.

(** A call of a method of [self._server], all arguments by keyword. *)
Definition forward (self : t) (method : string)
    (kwargs : list (string * Value)) : M Value :=
  call ext (ServerAPI_call (_server self) method kwargs).

Definition heartbeat (self : t) : M Value :=
  forward self "heartbeat" [].

Definition list_collections (self : t) : M Value :=
  forward self "list_collections"
    [("tenant", VStr (tenant self)); ("database", VStr (database self))].

Definition create_collection (self : t) (name : Value)
    (metadata embedding_function get_or_create : option Value) : M Value :=
  let metadata := or_default VNone metadata in
  let embedding_function :=
    or_default (create_collection__embedding_function g) embedding_function in
  let get_or_create := or_default (VBool false) get_or_create in
  forward self "create_collection"
    [("name", name); ("metadata", metadata);
     ("embedding_function", embedding_function);
     ("tenant", VStr (tenant self)); ("database", VStr (database self));
     ("get_or_create", get_or_create)].

Definition get_collection (self : t) (name : Value)
    (embedding_function : option Value) : M Value :=
  let embedding_function :=
    or_default (get_collection__embedding_function g) embedding_function in
  forward self "get_collection"
    [("name", name); ("embedding_function", embedding_function);
     ("tenant", VStr (tenant self)); ("database", VStr (database self))].

Definition get_or_create_collection (self : t) (name : Value)
    (metadata embedding_function : option Value) : M Value :=
  let metadata := or_default VNone metadata in
  let embedding_function :=
    or_default (get_or_create_collection__embedding_function g)
      embedding_function in
  forward self "get_or_create_collection"
    [("name", name); ("metadata", metadata);
     ("embedding_function", embedding_function);
     ("tenant", VStr (tenant self)); ("database", VStr (database self))].

Definition _modify (self : t) (id : Value)
    (new_name new_metadata : option Value) : M Value :=
  forward self "_modify"
    [("id", id); ("new_name", or_default VNone new_name);
     ("new_metadata", or_default VNone new_metadata)].

Definition delete_collection (self : t) (name : Value) : M Value :=
  forward self "delete_collection"
    [("name", name);
     ("tenant", VStr (tenant self)); ("database", VStr (database self))].

Definition _add (self : t) (ids collection_id embeddings : Value)
    (metadatas documents : option Value) : M Value :=
  forward self "_add"
    [("ids", ids); ("collection_id", collection_id);
     ("embeddings", embeddings);
     ("metadatas", or_default VNone metadatas);
     ("documents", or_default VNone documents)].

Definition _update (self : t) (collection_id ids : Value)
    (embeddings metadatas documents : option Value) : M Value :=
  forward self "_update"
    [("collection_id", collection_id); ("ids", ids);
     ("embeddings", or_default VNone embeddings);
     ("metadatas", or_default VNone metadatas);
     ("documents", or_default VNone documents)].

Definition _upsert (self : t) (collection_id ids embeddings : Value)
    (metadatas documents : option Value) : M Value :=
  forward self "_upsert"
    [("collection_id", collection_id); ("ids", ids);
     ("embeddings", embeddings);
     ("metadatas", or_default VNone metadatas);
     ("documents", or_default VNone documents)].

Definition _count (self : t) (collection_id : Value) : M Value :=
  forward self "_count" [("collection_id", collection_id)].

Definition _peek (self : t) (collection_id : Value) (n : option Value)
  : M Value :=
  forward self "_peek"
    [("collection_id", collection_id); ("n", or_default (VInt 10) n)].

Definition _get (self : t) (collection_id : Value)
    (ids where_ sort limit offset page page_size where_document include
       : option Value) : M Value :=
  forward self "_get"
    [("collection_id", collection_id);
     ("ids", or_default VNone ids);
     ("where", or_default (VDict []) where_);
     ("sort", or_default VNone sort);
     ("limit", or_default VNone limit);
     ("offset", or_default VNone offset);
     ("page", or_default VNone page);
     ("page_size", or_default VNone page_size);
     ("where_document", or_default (VDict []) where_document);
     ("include",
      or_default
        (VList [VStr "embeddings"; VStr "metadatas"; VStr "documents"])
        include)].

Definition _delete (self : t) (collection_id ids : Value)
    (where_ where_document : option Value) : M Value :=
  forward self "_delete"
    [("collection_id", collection_id); ("ids", ids);
     ("where", or_default (VDict []) where_);
     ("where_document", or_default (VDict []) where_document)].

Definition _query (self : t) (collection_id query_embeddings : Value)
    (n_results where_ where_document include : option Value) : M Value :=
  forward self "_query"
    [("collection_id", collection_id);
     ("query_embeddings", query_embeddings);
     ("n_results", or_default (VInt 10) n_results);
     ("where", or_default (VDict []) where_);
     ("where_document", or_default (VDict []) where_document);
     ("include",
      or_default
        (VList [VStr "embeddings"; VStr "metadatas"; VStr "documents";
                VStr "distances"])
        include)].

Definition reset (self : t) : M Value :=
  forward self "reset" [].

Definition get_version (self : t) : M Value :=
  forward self "get_version" [].

Definition get_settings (self : t) : M Value :=
  forward self "get_settings" [].

(** The property [max_batch_size] reads an attribute of the server. *)
Definition max_batch_size (self : t) : M Value :=
  call ext (ServerAPI_getattr (_server self) "max_batch_size").

End methods.

(** The two setters assign one attribute of [self]; the object after the
    assignment is returned. *)
Definition set_database (self : t) (database' : string) : M t :=
  mret {| super := super self; tenant := tenant self;
          database := database'; _server := _server self |}.

Definition set_tenant (self : t) (tenant' : string) : M t :=
  mret {| super := super self; tenant := tenant';
          database := database self; _server := _server self |}.

End Client.

(** ** class AdminClient *)

Module AdminClient.

Record t : Type := {
  super : SharedSystemClient.t;
  _server : nat
}.

Definition _system (self : t) : M System :=
  SharedSystemClient._system (super self).

Section methods.
Context (ext : External) (g : Globals).

Definition __init__ (settings : Settings) : M t :=
  base ← SharedSystemClient.__init__ ext settings;
  system ← SharedSystemClient._system base;
  call ext (System_instance (oid system) ServerAPI);;
  mret {| super := base; _server := oid system |}.

Definition create_database (self : t) (name : Value)
    (tenant : option Value) : M Value :=
  call ext (ServerAPI_call (_server self) "create_database"
    [("name", name);
     ("tenant", or_default (VStr (DEFAULT_TENANT g)) tenant)]).

End methods.

End AdminClient.

(** ** Constructions and operations of a program that uses the module *)

Inductive Constructor : Type :=
  | NewSharedSystemClient (settings : Settings)
  | NewClient (tenant database : option string) (settings : Settings)
  | NewAdminClient (settings : Settings).

Definition constructor_settings (k : Constructor) : Settings :=
  match k with
  | NewSharedSystemClient s => s
  | NewClient _ _ s => s
  | NewAdminClient s => s
  end.

Inductive Handle : Type :=
  | HShared (self : SharedSystemClient.t)
  | HClient (self : Client.t)
  | HAdmin (self : AdminClient.t).

Definition handle_shared (h : Handle) : SharedSystemClient.t :=
  match h with
  | HShared self => self
  | HClient self => Client.super self
  | HAdmin self => AdminClient.super self
  end.

(** [h._system] *)
Definition handle_system (h : Handle) : M System :=
  match h with
  | HShared self => SharedSystemClient._system self
  | HClient self => Client._system self
  | HAdmin self => AdminClient._system self
  end.

(** [h._server], for the two classes that have the attribute. *)
Definition handle_server (h : Handle) : option nat :=
  match h with
  | HShared _ => None
  | HClient self => Some (Client._server self)
  | HAdmin self => Some (AdminClient._server self)
  end.

Definition construct (ext : External) (k : Constructor) : M Handle :=
  match k with
  | NewSharedSystemClient s =>
      self ← SharedSystemClient.__init__ ext s; mret (HShared self)
  | NewClient tenant database s =>
      self ← Client.__init__ ext tenant database s; mret (HClient self)
  | NewAdminClient s =>
      self ← AdminClient.__init__ ext s; mret (HAdmin self)
  end.

(** What a caller can do between two constructions: construct, clear the
    cache, or use a proxy, which calls a method or reads an attribute of
    some server. *)
Inductive Op : Type :=
  | Construct (k : Constructor)
  | ClearSystemCache
  | CallMethod (server : nat) (method : string)
      (kwargs : list (string * Value))
  | ReadAttribute (server : nat) (name : string).

Definition exec (ext : External) (op : Op) (st : State) : State :=
  match op with
  | Construct k => state_of (construct ext k st)
  | ClearSystemCache => state_of (SharedSystemClient.clear_system_cache st)
  | CallMethod server method kwargs =>
      state_of (call ext (ServerAPI_call server method kwargs) st)
  | ReadAttribute server name =>
      state_of (call ext (ServerAPI_getattr server name) st)
  end.

Definition execs (ext : External) (ops : list Op) (st : State) : State :=
  foldl (λ st op, exec ext op st) st ops.

Definition is_clear (op : Op) : bool :=
  match op with ClearSystemCache => true | _ => false end.

Definition no_clear (ops : list Op) : Prop :=
  forallb (λ op, negb (is_clear op)) ops = true.

(** ** The methods of a Client as requests *)

Inductive Request : Type :=
  | Heartbeat
  | ListCollections
  | CreateCollection (name : Value)
      (metadata embedding_function get_or_create : option Value)
  | GetCollection (name : Value) (embedding_function : option Value)
  | GetOrCreateCollection (name : Value)
      (metadata embedding_function : option Value)
  | Modify (id : Value) (new_name new_metadata : option Value)
  | DeleteCollection (name : Value)
  | Add (ids collection_id embeddings : Value)
      (metadatas documents : option Value)
  | Update (collection_id ids : Value)
      (embeddings metadatas documents : option Value)
  | Upsert (collection_id ids embeddings : Value)
      (metadatas documents : option Value)
  | Count (collection_id : Value)
  | Peek (collection_id : Value) (n : option Value)
  | Get (collection_id : Value)
      (ids where_ sort limit offset page page_size where_document include
         : option Value)
  | Delete (collection_id ids : Value) (where_ where_document : option Value)
  | Query (collection_id query_embeddings : Value)
      (n_results where_ where_document include : option Value)
  | Reset
  | GetVersion
  | GetSettings
  | MaxBatchSize.

Definition dispatch (ext : External) (g : Globals) (self : Client.t)
    (r : Request) : M Value :=
  match r with
  | Heartbeat => Client.heartbeat ext self
  | ListCollections => Client.list_collections ext self
  | CreateCollection name metadata embedding_function get_or_create =>
      Client.create_collection ext g self name metadata embedding_function
        get_or_create
  | GetCollection name embedding_function =>
      Client.get_collection ext g self name embedding_function
  | GetOrCreateCollection name metadata embedding_function =>
      Client.get_or_create_collection ext g self name metadata
        embedding_function
  | Modify id new_name new_metadata =>
      Client._modify ext self id new_name new_metadata
  | DeleteCollection name => Client.delete_collection ext self name
  | Add ids collection_id embeddings metadatas documents =>
      Client._add ext self ids collection_id embeddings metadatas documents
  | Update collection_id ids embeddings metadatas documents =>
      Client._update ext self collection_id ids embeddings metadatas
        documents
  | Upsert collection_id ids embeddings metadatas documents =>
      Client._upsert ext self collection_id ids embeddings metadatas
        documents
  | Count collection_id => Client._count ext self collection_id
  | Peek collection_id n => Client._peek ext self collection_id n
  | Get collection_id ids where_ sort limit offset page page_size
        where_document include =>
      Client._get ext self collection_id ids where_ sort limit offset page
        page_size where_document include
  | Delete collection_id ids where_ where_document =>
      Client._delete ext self collection_id ids where_ where_document
  | Query collection_id query_embeddings n_results where_ where_document
        include =>
      Client._query ext self collection_id query_embeddings n_results where_
        where_document include
  | Reset => Client.reset ext self
  | GetVersion => Client.get_version ext self
  | GetSettings => Client.get_settings ext self
  | MaxBatchSize => Client.max_batch_size ext self
  end.

(** The five operations on collections by name. *)
Definition collection_level (r : Request) : bool :=
  match r with
  | ListCollections | CreateCollection _ _ _ _ | GetCollection _ _
  | GetOrCreateCollection _ _ _ | DeleteCollection _ => true
  | _ => false
  end.

(** The three operations that take an embedding function. *)
Definition request_embedding_function (r : Request)
  : option (option Value) :=
  match r with
  | CreateCollection _ _ ef _ => Some ef
  | GetCollection _ ef => Some ef
  | GetOrCreateCollection _ _ ef => Some ef
  | _ => None
  end.

(** The value passed for keyword [name], if the keyword is passed. *)
Fixpoint kwarg (name : string) (kwargs : list (string * Value))
  : option Value :=
  match kwargs with
  | [] => None
  | (k, v) :: rest => if bool_decide (k = name) then Some v
                      else kwarg name rest
  end.

(** The keyword arguments of a call ([[]] when it takes none). *)
Definition call_kwargs (c : Call) : list (string * Value) :=
  match c with
  | ServerAPI_call _ _ kwargs => kwargs
  | _ => []
  end.

(** The component a call is made on, for calls on a server. *)
Definition call_server (c : Call) : option nat :=
  match c with
  | ServerAPI_call server _ _ => Some server
  | ServerAPI_getattr server _ => Some server
  | _ => None
  end.

Definition is_System_new (c : Call) : bool :=
  match c with System_new _ => true | _ => false end.

(** How many times [System(...)] has been called. *)
Definition constructions (st : State) : nat :=
  length (filter (λ c, is_System_new c = true) (log st)).

(** ** Constructions by several threads *)

(** A thread that runs [SharedSystemClient(settings)], as the statement it
    is about to execute (named by its line in client.py) with the local
    variables that are live there.  Nothing in the module takes a lock, so
    another thread may run between any two statements. *)
Inductive Thread : Type :=
  | L35 (settings : Settings)
  | L42 (identifier : string) (settings : Settings)
  | L43 (identifier : string) (settings : Settings)
  | L44 (identifier : string) (new_system : System)
  | L46 (identifier : string) (new_system : System)
  | L47 (identifier : string) (new_system : System)
  | L49 (identifier : string) (new_system : System)
  | L51 (identifier : string) (settings : Settings)
  | L54 (identifier : string) (settings : Settings)
      (previous_system : System)
  | L59 (identifier : string)
  | Returned (self : SharedSystemClient.t) (system : System)
  | Raised (e : Exn).

Definition continue {A} (r : Result A) (k : A → Thread) : Thread * State :=
  match r with
  | Ok a st => (k a, st)
  | Raise e st => (Raised e, st)
  end.

Definition thread_step (ext : External) (t : Thread) (st : State)
  : Thread * State :=
  match t with
  | L35 s =>
      continue (lift (SharedSystemClient._get_identifier_from_settings s) st)
        (λ identifier, L42 identifier s)
  | L42 identifier s =>
      match _identifer_to_system st !! identifier with
      | None => (L43 identifier s, st)
      | Some _ => (L51 identifier s, st)
      end
  | L43 identifier s =>
      continue (SharedSystemClient.System__init__ ext s st)
        (λ new_system, L44 identifier new_system)
  | L44 identifier new_system =>
      continue (SharedSystemClient.setitem identifier new_system st)
        (λ _, L46 identifier new_system)
  | L46 identifier new_system =>
      continue (call ext (System_instance (oid new_system) Telemetry) st)
        (λ _, L47 identifier new_system)
  | L47 identifier new_system =>
      continue (call ext (System_instance (oid new_system) ServerAPI) st)
        (λ _, L49 identifier new_system)
  | L49 identifier new_system =>
      continue (call ext (System_start (oid new_system)) st)
        (λ _, L59 identifier)
  | L51 identifier s =>
      continue (SharedSystemClient.getitem identifier st)
        (λ previous_system, L54 identifier s previous_system)
  | L54 identifier s previous_system =>
      if bool_decide (settings previous_system ≠ s) then
        (Raised (SettingsConflictError identifier), st)
      else (L59 identifier, st)
  | L59 identifier =>
      continue (SharedSystemClient.getitem identifier st)
        (λ system,
           Returned {| SharedSystemClient._identifier := identifier |} system)
  | Returned self system => (Returned self system, st)
  | Raised e => (Raised e, st)
  end.

(** One thread left alone for [fuel] statements. *)
Fixpoint run_thread (ext : External) (fuel : nat) (t : Thread) (st : State)
  : Thread * State :=
  match fuel with
  | O => (t, st)
  | S fuel =>
      let '(t', st') := thread_step ext t st in run_thread ext fuel t' st'
  end.

(** A schedule names, statement after statement, the thread that runs. *)
Fixpoint run_schedule (ext : External) (schedule : list nat)
    (pool : list Thread) (st : State) : list Thread * State :=
  match schedule with
  | [] => (pool, st)
  | i :: schedule =>
      match pool !! i with
      | None => run_schedule ext schedule pool st
      | Some t =>
          let '(t', st') := thread_step ext t st in
          run_schedule ext schedule (<[i := t']> pool) st'
      end
  end.

Definition finished (t : Thread) : bool :=
  match t with Returned _ _ | Raised _ => true | _ => false end.

Definition thread_system (t : Thread) : option System :=
  match t with Returned _ system => Some system | _ => None end.

(** [n] constructions with the same settings, one after the other. *)
Fixpoint construct_all (ext : External) (n : nat) (s : Settings)
  : M (list SharedSystemClient.t) :=
  match n with
  | O => mret []
  | S n =>
      self ← SharedSystemClient.__init__ ext s;
      rest ← construct_all ext n s;
      mret (self :: rest)
  end.

(** ** Sample inputs *)

Definition local_settings (persistent : bool) (path : string) : Settings :=
  {| chroma_api_impl := Some "chromadb.api.segment.SegmentAPI";
     is_persistent := persistent;
     persist_directory := path;
     chroma_server_host := PyNone;
     chroma_server_http_port := PyNone;
     other_options := ∅ |}.

Definition remote_settings (host port : PyVal) : Settings :=
  {| chroma_api_impl := Some "chromadb.api.fastapi.FastAPI";
     is_persistent := false;
     persist_directory := "./chroma";
     chroma_server_host := host;
     chroma_server_http_port := port;
     other_options := ∅ |}.

Definition with_option (k : string) (v : PyVal) (s : Settings) : Settings :=
  {| chroma_api_impl := chroma_api_impl s;
     is_persistent := is_persistent s;
     persist_directory := persist_directory s;
     chroma_server_host := chroma_server_host s;
     chroma_server_http_port := chroma_server_http_port s;
     other_options := <[k := v]> (other_options s) |}.

(** Collaborators that never raise and return [None]. *)
Definition reliable : External :=
  {| respond := λ _ _, inr VNone |}.

(** Collaborators of which only [Telemetry.capture] raises. *)
Definition failing_telemetry : External :=
  {| respond := λ _ c,
       match c with
       | Telemetry_capture _ _ => inl (BackendError 1)
       | _ => inr VNone
       end |}.

Definition sample_globals : Globals :=
  {| DEFAULT_TENANT := "default_tenant";
     DEFAULT_DATABASE := "default_database";
     create_collection__embedding_function := VObj 100;
     get_collection__embedding_function := VObj 101;
     get_or_create_collection__embedding_function := VObj 102 |}.

Definition sample_settings : Settings := local_settings false "./chroma".

Definition sample_system : System :=
  {| oid := 0; settings := sample_settings |}.

(** The state after one construction from [sample_settings], the log
    left out. *)
Definition sample_state : State :=
  {| _identifer_to_system := {[ "ephemeral" := sample_system ]};
     allocated := 1; log := [] |}.

Definition sample_shared : SharedSystemClient.t :=
  {| SharedSystemClient._identifier := "ephemeral" |}.

Definition sample_client : Client.t :=
  {| Client.super := sample_shared; Client.tenant := "default";
     Client.database := "default"; Client._server := 0 |}.

Definition sample_admin : AdminClient.t :=
  {| AdminClient.super := sample_shared; AdminClient._server := 0 |}.

(** Two threads construct from the same settings; each runs line 35 and
    the test of line 42 before either runs line 43. *)
Definition racing_schedule : list nat :=
  [0; 1; 0; 1; 0; 0; 0; 0; 0; 0; 1; 1; 1; 1; 1; 1].

(** ** The rules of identifier resolution, as the specification words them *)

Definition embedded_kind : string := "chromadb.api.segment.SegmentAPI".
Definition remote_kind : string := "chromadb.api.fastapi.FastAPI".

Inductive resolve_spec (s : Settings) : Exn + string → Prop :=
  | resolve_unset :
      chroma_api_impl s = None →
      resolve_spec s (inl ConfigurationError)
  | resolve_unrecognized kind :
      chroma_api_impl s = Some kind →
      kind ≠ embedded_kind → kind ≠ remote_kind →
      resolve_spec s (inl (UnsupportedImplementationError kind))
  | resolve_persistent :
      chroma_api_impl s = Some embedded_kind → is_persistent s = true →
      resolve_spec s (inr (persist_directory s))
  | resolve_ephemeral :
      chroma_api_impl s = Some embedded_kind → is_persistent s = false →
      resolve_spec s (inr "ephemeral")
  | resolve_remote :
      chroma_api_impl s = Some remote_kind →
      resolve_spec s
        (inr (format_value (chroma_server_host s) +:+ ":"
              +:+ format_value (chroma_server_http_port s))).

(** One state extends another when nothing was taken from the registry,
    no object was forgotten and the log only grew. *)
Definition extends (st st' : State) : Prop :=
  _identifer_to_system st ⊆ _identifer_to_system st'
  ∧ (allocated st ≤ allocated st')%nat
  ∧ log st `prefix_of` log st'.

#[local] Instance extends_reflexive : Reflexive extends.
Proof. intros st. by repeat split. Qed.

#[local] Instance extends_transitive : Transitive extends.
Proof.
  intros st1 st2 st3 (Hr1 & Ha1 & Hl1) (Hr2 & Ha2 & Hl2).
  repeat split; [by etrans | lia | by etrans].
Qed.

(** A computation under which every state is extended. *)
Definition monotone {A} (m : M A) : Prop :=
  ∀ st, extends st (state_of (m st)).

(** Every registered system was constructed, and under the identifier that
    its settings resolve to. *)
Definition registry_ok (st : State) : Prop :=
  ∀ identifier system,
    _identifer_to_system st !! identifier = Some system →
    (oid system < allocated st)%nat
    ∧ SharedSystemClient._get_identifier_from_settings (settings system)
      = inr identifier.

(** The facts about a system [system] obtained for [identifier] from state
    [st], the state afterwards being [st']: it is registered and was built
    from the requested settings; if the identifier was registered before,
    it is that very system and nothing was constructed; otherwise it is the
    one object constructed in between. *)
Definition obtained (identifier : string) (s : Settings) (system : System)
    (st st' : State) : Prop :=
  _identifer_to_system st' !! identifier = Some system
  ∧ settings system = s
  ∧ (∀ previous_system,
       _identifer_to_system st !! identifier = Some previous_system →
       system = previous_system
       ∧ _identifer_to_system st' = _identifer_to_system st
       ∧ allocated st' = allocated st
       ∧ constructions st' = constructions st)
  ∧ (_identifer_to_system st !! identifier = None →
       oid system = allocated st
       ∧ allocated st' = S (allocated st)
       ∧ constructions st' = S (constructions st)).

(** A computation that keeps a property of the state, whatever it
    returns or raises. *)
Definition keeps {A} (P : State → Prop) (m : M A) : Prop :=
  ∀ st, P st → P (state_of (m st)).

(** Collaborators that answer the calls of a construction (constructor,
    [instance], [start], [capture]) without raising. *)
Definition never_raises (ext : External) : Prop :=
  ∀ history c, ∃ v, respond ext history c = inr v.

(** No system object is registered under two identifiers. *)
Definition registry_distinct (st : State) : Prop :=
  ∀ identifier1 identifier2 system1 system2,
    _identifer_to_system st !! identifier1 = Some system1 →
    _identifer_to_system st !! identifier2 = Some system2 →
    oid system1 = oid system2 →
    identifier1 = identifier2.

(** Collaborators of which only [System.start] raises. *)
Definition failing_start : External :=
  {| respond := λ _ c,
       match c with
       | System_start _ => inl (BackendError 2)
       | _ => inr VNone
       end |}.

(** Settings that name a backend kind the module does not know. *)
Definition unsupported_settings : Settings :=
  {| chroma_api_impl := Some "chromadb.api.local.LocalAPI";
     is_persistent := false;
     persist_directory := "./chroma";
     chroma_server_host := PyNone;
     chroma_server_http_port := PyNone;
     other_options := ∅ |}.

Definition is_Telemetry_capture (c : Call) : bool :=
  match c with Telemetry_capture _ _ => true | _ => false end.

(** How many times [capture] has been called. *)
Definition captures (st : State) : nat :=
  length (filter (λ c, is_Telemetry_capture c = true) (log st)).

(** * Theorems *)

Ltac unfold_M :=
  unfold mbind, mret, M_bind, M_ret, raise, get_state, modify, lift, call,
    SharedSystemClient.getitem, SharedSystemClient.setitem in *.

(** ** Identifier resolution *)

Example identifier_local_persistent :
  SharedSystemClient._get_identifier_from_settings
    (local_settings true "/tmp/x") = inr "/tmp/x".
Proof. reflexivity. Qed.

Example identifier_local_ephemeral :
  SharedSystemClient._get_identifier_from_settings
    (local_settings false "/tmp/x") = inr "ephemeral".
Proof. reflexivity. Qed.

Example identifier_remote_int_port :
  SharedSystemClient._get_identifier_from_settings
    (remote_settings (PyStr "h") (PyInt 8000)) = inr "h:8000".
Proof. vm_compute. reflexivity. Qed.

Example identifier_remote_str_port :
  SharedSystemClient._get_identifier_from_settings
    (remote_settings (PyStr "h") (PyStr "8000")) = inr "h:8000".
Proof. reflexivity. Qed.

Lemma resolve_spec_sound s :
  resolve_spec s (SharedSystemClient._get_identifier_from_settings s).
Proof.
  unfold SharedSystemClient._get_identifier_from_settings.
  destruct (chroma_api_impl s) as [kind|] eqn:Hkind; [|by constructor].
  case_bool_decide as Hlocal.
  - subst kind. destruct (is_persistent s) eqn:Hp; by constructor.
  - case_bool_decide as Hremote.
    + subst kind. by constructor.
    + by constructor.
Qed.

Lemma resolve_spec_functional s r1 r2 :
  resolve_spec s r1 → resolve_spec s r2 → r1 = r2.
Proof.
  intros H1 H2.
  destruct H1, H2; unfold embedded_kind, remote_kind in *; congruence.
Qed.

(** C3: identifier resolution is a total, deterministic function of the
    settings, and its graph is exactly the five rules of the specification:
    no backend kind fails with ConfigurationError, an unrecognized kind with
    UnsupportedImplementationError, the embedded kind gives the persist
    directory when persistent and "ephemeral" otherwise, the remote kind
    gives host ":" port. *)
Theorem identifier_resolution_rules (s : Settings) (r : Exn + string) :
  resolve_spec s r ↔ SharedSystemClient._get_identifier_from_settings s = r.
Proof.
  split.
  - intros Hr. eapply resolve_spec_functional; [apply resolve_spec_sound|done].
  - intros <-. apply resolve_spec_sound.
Qed.

(** ** The registry *)

Lemma create_registered ext identifier s st previous_system :
  _identifer_to_system st !! identifier = Some previous_system →
  SharedSystemClient._create_system_if_not_exists ext identifier s st =
    if decide (settings previous_system = s)
    then Ok previous_system st
    else Raise (SettingsConflictError identifier) st.
Proof.
  intros Hreg. unfold SharedSystemClient._create_system_if_not_exists.
  unfold_M. rewrite Hreg.
  case_bool_decide; case_decide; try done. by rewrite Hreg.
Qed.

(** C2: when the identifier is already registered,
    [_create_system_if_not_exists] returns the registered system if its
    settings equal the requested ones, and otherwise raises the
    settings-conflict ValueError; in both cases the state, and so the
    registry, is what it was.  A construction from settings that resolve to
    a registered identifier succeeds or fails accordingly. *)
Theorem registered_identifier_checked (ext : External) (identifier : string)
    (s : Settings) (st : State) (previous_system : System) :
  _identifer_to_system st !! identifier = Some previous_system →
  SharedSystemClient._create_system_if_not_exists ext identifier s st
  = (if decide (settings previous_system = s)
     then Ok previous_system st
     else Raise (SettingsConflictError identifier) st)
  ∧ (SharedSystemClient._get_identifier_from_settings s = inr identifier →
     SharedSystemClient.__init__ ext s st
     = if decide (settings previous_system = s)
       then Ok {| SharedSystemClient._identifier := identifier |} st
       else Raise (SettingsConflictError identifier) st).
Proof.
  intros Hreg. split; [by apply create_registered|].
  intros Hid. unfold SharedSystemClient.__init__. unfold_M.
  rewrite Hid. simpl. rewrite (create_registered _ _ _ _ _ Hreg).
  by case_decide.
Qed.

(** ** States only grow, except by a clear *)

Lemma extends_append_log c st : extends st (append_log c st).
Proof. repeat split; simpl; [done | lia | by apply prefix_app_r]. Qed.

Lemma monotone_ret {A} (a : A) : monotone (mret a).
Proof. intros st. done. Qed.

Lemma monotone_raise {A} e : monotone (raise (A := A) e).
Proof. intros st. done. Qed.

Lemma monotone_bind {A B} (m : M A) (f : A → M B) :
  monotone m → (∀ a, monotone (f a)) → monotone (m ≫= f).
Proof.
  intros Hm Hf st. specialize (Hm st). unfold_M.
  destruct (m st) as [a st'|e st']; simpl in *; [|done].
  etrans; [exact Hm | apply Hf].
Qed.

Lemma monotone_call ext c : monotone (call ext c).
Proof.
  intros st. unfold call.
  destruct (respond ext (log st) c); apply extends_append_log.
Qed.

Lemma monotone_getitem identifier :
  monotone (SharedSystemClient.getitem identifier).
Proof.
  intros st. unfold SharedSystemClient.getitem.
  by destruct (_identifer_to_system st !! identifier).
Qed.

Lemma monotone_lift {A} (r : Exn + A) : monotone (lift r).
Proof. destruct r; [apply monotone_raise | apply monotone_ret]. Qed.

Lemma constructions_append c st :
  constructions (append_log c st)
  = (constructions st + if is_System_new c then 1 else 0)%nat.
Proof.
  unfold constructions. simpl. rewrite filter_app, length_app.
  f_equal. rewrite filter_cons, filter_nil.
  destruct (is_System_new c); by case_decide.
Qed.

(** What [_create_system_if_not_exists] does for an identifier that is not
    registered: whatever the collaborators answer the state is extended, and
    when it returns, it returns a system that did not exist before, now
    registered under the identifier. *)
Lemma create_absent ext identifier s st :
  _identifer_to_system st !! identifier = None →
  extends st
    (state_of (SharedSystemClient._create_system_if_not_exists
                 ext identifier s st))
  ∧ ∀ system st',
      SharedSystemClient._create_system_if_not_exists ext identifier s st
        = Ok system st' →
      system = {| oid := allocated st; settings := s |}
      ∧ _identifer_to_system st'
        = <[identifier := system]> (_identifer_to_system st)
      ∧ allocated st' = S (allocated st)
      ∧ constructions st' = S (constructions st).
Proof.
  intros Hreg.
  unfold SharedSystemClient._create_system_if_not_exists,
    SharedSystemClient.System__init__.
  unfold_M. rewrite Hreg. simpl.
  assert (Hsub : _identifer_to_system st
                 ⊆ <[identifier := {| oid := allocated st; settings := s |}]>
                     (_identifer_to_system st))
    by by apply insert_subseteq.
  repeat match goal with
  | |- context [respond ext ?l ?c] => destruct (respond ext l c); simpl
  end;
    try (split; [|done]; repeat split; simpl;
         [done || exact Hsub | lia | repeat apply prefix_app_r; done]).
  rewrite lookup_insert_eq. simpl. split.
  { repeat split; simpl;
      [exact Hsub | lia | repeat apply prefix_app_r; done]. }
  intros system st' [= <- <-]. simpl. repeat split.
  rewrite !constructions_append. simpl.
  change (constructions (set_registry _ (set_allocated _ ?x)))
    with (constructions x).
  rewrite constructions_append. simpl. lia.
Qed.

(** ** Inversion of computations that returned *)

Lemma bind_Ok {A B} (m : M A) (f : A → M B) st b st' :
  (m ≫= f) st = Ok b st' →
  ∃ a st1, m st = Ok a st1 ∧ f a st1 = Ok b st'.
Proof.
  unfold_M. destruct (m st) as [a st1|e st1]; [eauto | done].
Qed.

Lemma ret_Ok {A} (a b : A) st st' :
  mret (M := M) a st = Ok b st' → a = b ∧ st = st'.
Proof. by intros [= -> ->]. Qed.

Lemma call_Ok ext c st v st' :
  call ext c st = Ok v st' →
  respond ext (log st) c = inr v ∧ st' = append_log c st.
Proof.
  unfold call. destruct (respond ext (log st) c); by intros [= <- <-].
Qed.

Lemma getitem_Ok identifier st system st' :
  SharedSystemClient.getitem identifier st = Ok system st' →
  _identifer_to_system st !! identifier = Some system ∧ st' = st.
Proof.
  unfold SharedSystemClient.getitem.
  destruct (_identifer_to_system st !! identifier); by intros [= <- <-].
Qed.

Lemma getitem_registered identifier st system :
  _identifer_to_system st !! identifier = Some system →
  SharedSystemClient.getitem identifier st = Ok system st.
Proof. unfold SharedSystemClient.getitem. by intros ->. Qed.

Lemma lift_Ok {A} (r : Exn + A) st a st' :
  lift r st = Ok a st' → r = inr a ∧ st' = st.
Proof. destruct r; by intros [= <- <-]. Qed.

Ltac invert_Ok :=
  repeat match goal with
  | H : (_ ≫= _) _ = Ok _ _ |- _ =>
      apply bind_Ok in H; destruct H as (? & ? & ? & H)
  | H : mret _ _ = Ok _ _ |- _ =>
      apply ret_Ok in H; destruct H as [? ?]; subst
  | H : call _ _ _ = Ok _ _ |- _ =>
      apply call_Ok in H; destruct H as [? ?]; subst
  | H : SharedSystemClient.getitem _ _ = Ok _ _ |- _ =>
      apply getitem_Ok in H; destruct H as [? ?]; subst
  | H : SharedSystemClient._system _ _ = Ok _ _ |- _ =>
      apply getitem_Ok in H; destruct H as [? ?]; subst
  | H : lift _ _ = Ok _ _ |- _ =>
      apply lift_Ok in H; destruct H as [? ?]; subst
  end.

(** ** What a construction that returned has done *)

Lemma obtained_append_log identifier s system st st' c :
  is_System_new c = false →
  obtained identifier s system st st' →
  obtained identifier s system st (append_log c st').
Proof.
  intros Hc (Hreg & Hs & Hsome & Hnone).
  split; [done|]. split; [done|]. split.
  - intros prev Hprev. destruct (Hsome _ Hprev) as (-> & ? & ? & ?).
    rewrite constructions_append, Hc. simpl. repeat split; try done; lia.
  - intros Habs. destruct (Hnone Habs) as (? & ? & ?).
    rewrite constructions_append, Hc. simpl. repeat split; try done; lia.
Qed.

Lemma create_Ok ext identifier s st system st' :
  SharedSystemClient._create_system_if_not_exists ext identifier s st
    = Ok system st' →
  obtained identifier s system st st'.
Proof.
  intros Hrun.
  destruct (_identifer_to_system st !! identifier) as [prev|] eqn:Hreg.
  - rewrite (create_registered _ _ _ _ _ Hreg) in Hrun.
    case_decide; [|done]. injection Hrun as <- <-.
    repeat split; try done; congruence.
  - destruct (create_absent ext identifier s st Hreg) as [_ Hnew].
    destruct (Hnew _ _ Hrun) as (-> & Hreg' & Halloc & Hcount).
    repeat split; try done.
    + rewrite Hreg'. apply lookup_insert_eq.
    + congruence.
    + congruence.
    + congruence.
    + congruence.
Qed.

Lemma init_Ok ext s st self st' :
  SharedSystemClient.__init__ ext s st = Ok self st' →
  SharedSystemClient._get_identifier_from_settings s
    = inr (SharedSystemClient._identifier self)
  ∧ ∃ system,
      obtained (SharedSystemClient._identifier self) s system st st'.
Proof.
  unfold SharedSystemClient.__init__. intros Hrun. invert_Ok.
  split; [done|]. eexists. simpl. by eapply create_Ok.
Qed.

(** Two lookups of one identifier in one registry find one system. *)
Ltac same_system Hsys :=
  let Hreg := fresh "Hreg" in
  pose proof (proj1 Hsys) as Hreg; simpl in *;
  repeat match goal with
  | H : _identifer_to_system _ !! _ = Some ?y |- _ =>
      lazymatch type of Hreg with
      | _ = Some y => fail
      | _ => rewrite Hreg in H; injection H as <-
      end
  end.

Lemma construct_Ok ext k st h st' :
  construct ext k st = Ok h st' →
  SharedSystemClient._get_identifier_from_settings (constructor_settings k)
    = inr (SharedSystemClient._identifier (handle_shared h))
  ∧ ∃ system,
      obtained (SharedSystemClient._identifier (handle_shared h))
        (constructor_settings k) system st st'
      ∧ ∀ server, handle_server h = Some server → server = oid system.
Proof.
  destruct k as [s|tenant database s|s]; simpl; intros Hrun.
  - invert_Ok. simpl.
    match goal with H : SharedSystemClient.__init__ _ _ _ = _ |- _ =>
      apply init_Ok in H; destruct H as [Hid (system & Hsys)] end.
    split; [done|]. exists system. by split.
  - unfold Client.__init__ in Hrun. invert_Ok. simpl.
    match goal with H : SharedSystemClient.__init__ _ _ _ = _ |- _ =>
      apply init_Ok in H; destruct H as [Hid (system & Hsys)] end.
    split; [done|]. exists system.
    same_system Hsys.
    split; [|by intros ? [= <-]].
    by repeat apply obtained_append_log.
  - unfold AdminClient.__init__ in Hrun. invert_Ok. simpl.
    match goal with H : SharedSystemClient.__init__ _ _ _ = _ |- _ =>
      apply init_Ok in H; destruct H as [Hid (system & Hsys)] end.
    split; [done|]. exists system.
    same_system Hsys.
    split; [|by intros ? [= <-]].
    by repeat apply obtained_append_log.
Qed.

Lemma monotone_create ext identifier s :
  monotone (SharedSystemClient._create_system_if_not_exists ext identifier s).
Proof.
  intros st.
  destruct (_identifer_to_system st !! identifier) as [prev|] eqn:Hreg.
  - rewrite (create_registered _ _ _ _ _ Hreg).
    by case_decide.
  - by apply create_absent.
Qed.

Lemma monotone_init ext s : monotone (SharedSystemClient.__init__ ext s).
Proof.
  unfold SharedSystemClient.__init__.
  apply monotone_bind; [apply monotone_lift|]. intros identifier.
  apply monotone_bind; [apply monotone_create|]. intros _.
  apply monotone_ret.
Qed.

Lemma monotone_construct ext k : monotone (construct ext k).
Proof.
  destruct k; simpl;
    unfold Client.__init__, AdminClient.__init__,
      SharedSystemClient._system;
    repeat first
      [ apply monotone_ret | apply monotone_init | apply monotone_call
      | apply monotone_getitem
      | apply monotone_bind; [|intros ?] ].
Qed.

Lemma extends_exec ext op st :
  is_clear op = false → extends st (exec ext op st).
Proof.
  destruct op; simpl; [| done | |]; intros _.
  - apply monotone_construct.
  - apply monotone_call.
  - apply monotone_call.
Qed.

Lemma extends_execs ext ops st :
  no_clear ops → extends st (execs ext ops st).
Proof.
  unfold no_clear. revert st.
  induction ops as [|op ops IH]; intros st Hops; simpl in *; [done|].
  apply andb_prop in Hops as [Hop Hops].
  etrans; [apply (extends_exec ext op)|by apply IH].
  by destruct (is_clear op).
Qed.

Lemma extends_lookup st st' identifier system :
  extends st st' →
  _identifer_to_system st !! identifier = Some system →
  _identifer_to_system st' !! identifier = Some system.
Proof. intros [Hsub _] Hreg. by eapply lookup_weaken. Qed.

(** ** Shared systems *)

(** C1: take two constructions, of any of the three classes, from equal
    settings, the second after any operations that follow the first.  Both
    handles then have the same [_system]: the one system registered under
    their identifier, built from these settings.  If the cache was not
    cleared in between, this is the system the first handle had from the
    start, the second construction constructed nothing, and the [_server]
    attributes (where the class has one) name the same component.  A
    registry never holds two systems for one identifier. *)
Theorem equal_settings_share_system (ext : External) (k1 k2 : Constructor)
    (ops : list Op) (st st1 st2 : State) (h1 h2 : Handle) :
  constructor_settings k1 = constructor_settings k2 →
  construct ext k1 st = Ok h1 st1 →
  construct ext k2 (execs ext ops st1) = Ok h2 st2 →
  (∀ st', handle_system h1 st' = handle_system h2 st')
  ∧ (∃ system,
       handle_system h1 st2 = Ok system st2
       ∧ handle_system h2 st2 = Ok system st2
       ∧ settings system = constructor_settings k1
       ∧ (no_clear ops →
            handle_system h1 st1 = Ok system st1
            ∧ allocated st2 = allocated (execs ext ops st1)
            ∧ constructions st2 = constructions (execs ext ops st1)
            ∧ ∀ server1 server2,
                handle_server h1 = Some server1 →
                handle_server h2 = Some server2 →
                server1 = server2))
  ∧ (∀ identifier system1 system2,
       _identifer_to_system st2 !! identifier = Some system1 →
       _identifer_to_system st2 !! identifier = Some system2 →
       system1 = system2).
Proof.
  intros Hsettings Hrun1 Hrun2.
  apply construct_Ok in Hrun1 as (Hid1 & system1 & Hsys1 & Hserver1).
  apply construct_Ok in Hrun2 as (Hid2 & system2 & Hsys2 & Hserver2).
  rewrite <-Hsettings in Hid2, Hsys2.
  assert (Hid : SharedSystemClient._identifier (handle_shared h1)
                = SharedSystemClient._identifier (handle_shared h2))
    by congruence.
  assert (Hsame : ∀ st', handle_system h1 st' = handle_system h2 st').
  { intros st'. destruct h1, h2; simpl in *;
      unfold Client._system, AdminClient._system,
        SharedSystemClient._system; by rewrite Hid. }
  split; [done|]. split; [|congruence].
  exists system2.
  assert (Hderef : handle_system h2 st2 = Ok system2 st2).
  { destruct Hsys2 as [Hreg2 _]. rewrite <-Hid in Hreg2.
    rewrite <-Hsame.
    destruct h1; simpl;
      unfold Client._system, AdminClient._system,
        SharedSystemClient._system; by apply getitem_registered. }
  split; [by rewrite Hsame|]. split; [done|].
  split; [by destruct Hsys2 as (_ & ? & _)|].
  intros Hops.
  destruct Hsys1 as (Hreg1 & _).
  pose proof (extends_lookup _ _ _ _ (extends_execs ext ops st1 Hops) Hreg1)
    as Hkept.
  rewrite Hid in Hkept.
  destruct Hsys2 as (_ & _ & Hfound & _).
  destruct (Hfound _ Hkept) as (-> & _ & Halloc & Hcount).
  split.
  { destruct h1; simpl;
      unfold Client._system, AdminClient._system,
        SharedSystemClient._system; by apply getitem_registered. }
  split; [done|]. split; [done|].
  intros server1 server2 H1 H2.
  by rewrite (Hserver1 _ H1), (Hserver2 _ H2).
Qed.

Lemma handle_system_registered h st system :
  _identifer_to_system st
    !! SharedSystemClient._identifier (handle_shared h) = Some system →
  handle_system h st = Ok system st.
Proof.
  intros Hreg. destruct h; simpl in *;
    unfold Client._system, AdminClient._system, SharedSystemClient._system;
    by apply getitem_registered.
Qed.

Lemma handle_system_unregistered h st :
  _identifer_to_system st
    !! SharedSystemClient._identifier (handle_shared h) = None →
  handle_system h st
  = Raise (KeyError (SharedSystemClient._identifier (handle_shared h))) st.
Proof.
  intros Hreg. destruct h; simpl in *;
    unfold Client._system, AdminClient._system, SharedSystemClient._system,
      SharedSystemClient.getitem; by rewrite Hreg.
Qed.

(** ** The [_system] property over the life of a handle *)

(** C6, as the code has it: after a construction returned, [_system] gives
    the registered system in the state reached, and in every state reached
    from there by operations other than a clear of the cache; in the state
    left by [clear_system_cache] it raises KeyError. *)
Theorem system_available_until_clear (ext : External) (k : Constructor)
    (st st1 : State) (h : Handle) :
  construct ext k st = Ok h st1 →
  ∃ system,
    handle_system h st1 = Ok system st1
    ∧ (∀ ops, no_clear ops →
         handle_system h (execs ext ops st1)
         = Ok system (execs ext ops st1))
    ∧ (∀ st',
         handle_system h
           (state_of (SharedSystemClient.clear_system_cache st'))
         = Raise (KeyError (SharedSystemClient._identifier (handle_shared h)))
             (state_of (SharedSystemClient.clear_system_cache st'))).
Proof.
  intros Hrun.
  apply construct_Ok in Hrun as (_ & system & (Hreg & _) & _).
  exists system. split; [by apply handle_system_registered|]. split.
  - intros ops Hops. apply handle_system_registered.
    eapply extends_lookup; [by apply extends_execs|done].
  - intros st'. by apply handle_system_unregistered.
Qed.

(** ** Telemetry at the start of a client *)

(** C4, as the code has it: [Client.__init__] has no handler around
    [capture].  Once the inherited constructor has returned and the two
    [instance] calls have returned, the construction returns the client if
    [capture] returns, and raises what [capture] raises otherwise; the
    system stays registered in both cases. *)
Theorem telemetry_outcome_decides_construction (ext : External)
    (tenant database : option string) (s : Settings) (st st1 : State)
    (base : SharedSystemClient.t) (system : System) (v1 v2 : Value) :
  SharedSystemClient.__init__ ext s st = Ok base st1 →
  _identifer_to_system st1 !! SharedSystemClient._identifier base
    = Some system →
  respond ext (log st1) (System_instance (oid system) ServerAPI) = inr v1 →
  respond ext (log st1 ++ [System_instance (oid system) ServerAPI])
    (System_instance (oid system) Telemetry) = inr v2 →
  let capture := Telemetry_capture (oid system) "ClientStartEvent" in
  let st' :=
    append_log capture
      (append_log (System_instance (oid system) Telemetry)
         (append_log (System_instance (oid system) ServerAPI) st1)) in
  _identifer_to_system st' = _identifer_to_system st1
  ∧ Client.__init__ ext tenant database s st =
      match
        respond ext
          ((log st1 ++ [System_instance (oid system) ServerAPI])
             ++ [System_instance (oid system) Telemetry]) capture
      with
      | inl e => Raise e st'
      | inr _ =>
          Ok {| Client.super := base;
                Client.tenant := default "default" tenant;
                Client.database := default "default" database;
                Client._server := oid system |} st'
      end.
Proof.
  intros Hbase Hreg Hserver Htelemetry capture st'. split; [done|].
  unfold Client.__init__, SharedSystemClient._system. unfold_M.
  rewrite Hbase. rewrite Hreg. rewrite Hserver. simpl.
  rewrite Hreg. simpl. rewrite Htelemetry. simpl.
  subst capture st'.
  match goal with
  | |- _ = match ?r with _ => _ end =>
      change (respond ext _ (Telemetry_capture _ _)) with r; by destruct r
  end.
Qed.

(** ** Clearing the cache *)

Lemma registry_ok_extends st st' :
  registry_ok st → (allocated st ≤ allocated st')%nat →
  _identifer_to_system st' = _identifer_to_system st →
  registry_ok st'.
Proof.
  intros Hok Hle Hreg identifier system Hsys. rewrite Hreg in Hsys.
  destruct (Hok _ _ Hsys). split; [lia|done].
Qed.

Lemma keeps_ret {A} P (a : A) : keeps P (mret a).
Proof. by intros st. Qed.

Lemma keeps_bind {A B} P (m : M A) (f : A → M B) :
  keeps P m → (∀ a, keeps P (f a)) → keeps P (m ≫= f).
Proof.
  intros Hm Hf st HP. specialize (Hm st HP). unfold_M.
  destruct (m st) as [a st'|e st']; simpl in *; [by apply Hf | done].
Qed.

Lemma keeps_lift {A} P (r : Exn + A) : keeps P (lift r).
Proof. by destruct r; intros st. Qed.

Lemma keeps_getitem P identifier :
  keeps P (SharedSystemClient.getitem identifier).
Proof.
  intros st HP. unfold SharedSystemClient.getitem.
  by destruct (_identifer_to_system st !! identifier).
Qed.

Lemma registry_ok_call ext c : keeps registry_ok (call ext c).
Proof.
  intros st Hok. unfold call.
  by destruct (respond ext (log st) c); simpl;
    (eapply registry_ok_extends; [exact Hok|..]).
Qed.

Lemma registry_ok_create ext identifier s :
  SharedSystemClient._get_identifier_from_settings s = inr identifier →
  keeps registry_ok
    (SharedSystemClient._create_system_if_not_exists ext identifier s).
Proof.
  intros Hid st Hok.
  destruct (_identifer_to_system st !! identifier) as [prev|] eqn:Hreg.
  { rewrite (create_registered _ _ _ _ _ Hreg).
    by case_decide. }
  unfold SharedSystemClient._create_system_if_not_exists,
    SharedSystemClient.System__init__.
  unfold_M. rewrite Hreg. simpl.
  assert (Hnew : ∀ st',
    _identifer_to_system st'
      = <[identifier := {| oid := allocated st; settings := s |}]>
          (_identifer_to_system st) →
    allocated st' = S (allocated st) → registry_ok st').
  { intros st' Hreg' Halloc identifier' system.
    rewrite Hreg', Halloc, lookup_insert. case_decide as Heq.
    - intros [= <-]. subst identifier'. simpl. split; [lia|done].
    - intros Hsys. destruct (Hok _ _ Hsys). split; [lia|done]. }
  repeat match goal with
  | |- context [respond ext ?l ?c] => destruct (respond ext l c); simpl
  end;
    try (by apply Hnew);
    try (by eapply registry_ok_extends; [exact Hok|..]).
  rewrite lookup_insert_eq. simpl. by apply Hnew.
Qed.

Lemma registry_ok_init ext s : keeps registry_ok (SharedSystemClient.__init__ ext s).
Proof.
  unfold SharedSystemClient.__init__. intros st Hok. unfold_M.
  destruct (SharedSystemClient._get_identifier_from_settings s)
    as [e|identifier] eqn:Hid; simpl; [done|].
  pose proof (registry_ok_create ext identifier s Hid st Hok) as Hcreate.
  by destruct (SharedSystemClient._create_system_if_not_exists _ _ _ _).
Qed.

Lemma registry_ok_construct ext k : keeps registry_ok (construct ext k).
Proof.
  destruct k; simpl;
    unfold Client.__init__, AdminClient.__init__,
      SharedSystemClient._system;
    repeat first
      [ apply keeps_ret | apply registry_ok_init | apply registry_ok_call
      | apply keeps_getitem
      | apply keeps_bind; [|intros ?] ].
Qed.

Lemma registry_ok_initial : registry_ok initial_state.
Proof. intros identifier system. simpl. by rewrite lookup_empty. Qed.

(** Every state that a program reaches satisfies [registry_ok]. *)
Lemma registry_ok_execs ext ops st :
  registry_ok st → registry_ok (execs ext ops st).
Proof.
  revert st. induction ops as [|op ops IH]; intros st Hok; simpl; [done|].
  apply IH. destruct op; simpl.
  - by apply registry_ok_construct.
  - intros identifier system.
    unfold SharedSystemClient.clear_system_cache, modify. simpl.
    by rewrite lookup_empty.
  - by apply registry_ok_call.
  - by apply registry_ok_call.
Qed.

(** With collaborators that do not raise, a construction fails only in
    resolving the identifier or on a conflict of settings; from an empty
    registry there is no conflict. *)
Lemma construct_returns ext k st identifier :
  never_raises ext →
  SharedSystemClient._get_identifier_from_settings (constructor_settings k)
    = inr identifier →
  _identifer_to_system st !! identifier = None →
  ∃ h st', construct ext k st = Ok h st'.
Proof.
  intros Hext Hid Hreg.
  assert (Hbase : ∃ st',
    SharedSystemClient.__init__ ext (constructor_settings k) st
      = Ok {| SharedSystemClient._identifier := identifier |} st'
    ∧ is_Some (_identifer_to_system st' !! identifier)).
  { unfold SharedSystemClient.__init__,
      SharedSystemClient._create_system_if_not_exists,
      SharedSystemClient.System__init__.
    unfold_M. rewrite Hid. simpl. rewrite Hreg.
    repeat match goal with
    | |- context [respond ext ?l ?c] =>
        destruct (Hext l c) as [? ->]; simpl
    end.
    rewrite lookup_insert_eq. simpl. eexists. split; [done|].
    simpl. by rewrite lookup_insert_eq. }
  destruct Hbase as (st' & Hbase & system & Hsys).
  destruct k as [s|tenant database s|s]; simpl in *.
  - unfold_M. rewrite Hbase. eauto.
  - unfold Client.__init__, SharedSystemClient._system. unfold_M.
    rewrite Hbase. simpl. rewrite Hsys.
    repeat match goal with
    | |- context [respond ext ?l ?c] =>
        destruct (Hext l c) as [? ->]; simpl; rewrite ?Hsys
    end.
    eauto.
  - unfold AdminClient.__init__, SharedSystemClient._system. unfold_M.
    rewrite Hbase. simpl. rewrite Hsys.
    repeat match goal with
    | |- context [respond ext ?l ?c] =>
        destruct (Hext l c) as [? ->]; simpl; rewrite ?Hsys
    end.
    eauto.
Qed.

(** C5: [clear_system_cache] returns with an empty registry, the objects
    constructed so far and the log of calls on the collaborators being what
    they were: it calls nothing on the systems it drops.  A construction
    that then returns has a system constructed after the clear, which is
    none of the objects that existed before, in particular none of the
    systems registered before; and with collaborators that do not raise,
    a construction whose settings resolve does return. *)
Theorem clear_then_construct_is_new (ext : External) (k : Constructor)
    (st : State) :
  let st0 := set_registry ∅ st in
  SharedSystemClient.clear_system_cache st = Ok () st0
  ∧ _identifer_to_system st0 = ∅
  ∧ allocated st0 = allocated st
  ∧ log st0 = log st
  ∧ (∀ h st',
       construct ext k st0 = Ok h st' →
       ∃ system,
         handle_system h st' = Ok system st'
         ∧ settings system = constructor_settings k
         ∧ oid system = allocated st
         ∧ constructions st' = S (constructions st)
         ∧ (∀ old, (oid old < allocated st)%nat → system ≠ old)
         ∧ (registry_ok st →
            ∀ identifier old,
              _identifer_to_system st !! identifier = Some old →
              system ≠ old))
  ∧ (never_raises ext →
     ∀ identifier,
       SharedSystemClient._get_identifier_from_settings
         (constructor_settings k) = inr identifier →
       ∃ h st', construct ext k st0 = Ok h st').
Proof.
  intros st0. repeat split; try done.
  - intros h st' Hrun.
    apply construct_Ok in Hrun as (_ & system & Hsys & _).
    destruct Hsys as (Hreg & Hsettings & _ & Hnew).
    destruct Hnew as (Hoid & _ & Hcount); [by apply lookup_empty|].
    exists system. split; [by apply handle_system_registered|].
    repeat split; try done.
    + intros old Hold ->. simpl in Hoid. lia.
    + intros Hok identifier old Hreg_old ->.
      destruct (Hok _ _ Hreg_old). simpl in Hoid. lia.
  - intros Hext identifier Hid.
    eapply construct_returns; [done..|]. by apply lookup_empty.
Qed.

(** ** The calls that a Client forwards *)

Lemma call_log ext c st :
  log (state_of (call ext c st)) = log st ++ [c].
Proof. unfold call. by destruct (respond ext (log st) c). Qed.

(** Every method of a Client is one call on its server.  The five
    operations on collections by name pass the tenant and the database of
    the client; the others pass neither, and are the same computation for
    two clients of one server. *)
Lemma dispatch_call ext g self r :
  ∃ c,
    dispatch ext g self r = call ext c
    ∧ call_server c = Some (Client._server self)
    ∧ if collection_level r then
        kwarg "tenant" (call_kwargs c) = Some (VStr (Client.tenant self))
        ∧ kwarg "database" (call_kwargs c)
          = Some (VStr (Client.database self))
      else
        kwarg "tenant" (call_kwargs c) = None
        ∧ kwarg "database" (call_kwargs c) = None
        ∧ ∀ self',
            Client._server self' = Client._server self →
            dispatch ext g self' r = call ext c.
Proof.
  destruct r; simpl;
    (eexists; split; [reflexivity|]; split; [reflexivity|]);
    repeat split; try reflexivity;
    intros self' Hserver; cbv beta delta [
      Client.heartbeat Client._modify Client._add Client._update
      Client._upsert Client._count Client._peek Client._get Client._delete
      Client._query Client.reset Client.get_version Client.get_settings
      Client.max_batch_size Client.forward ];
    by rewrite Hserver.
Qed.

(** C10: every request of a Client makes exactly one call, on the client's
    server.  For the operations on collections by name (list, create, get,
    get-or-create, delete) the call carries the client's tenant and
    database; for all the others ([_add], [_update], [_upsert], [_count],
    [_peek], [_get], [_delete], [_query], [_modify], [heartbeat], [reset],
    [get_version], [get_settings], [max_batch_size]) it has no [tenant] and
    no [database] argument, and does not depend on the client's tenant and
    database at all. *)
Theorem tenant_and_database_only_for_collections (ext : External)
    (g : Globals) (self : Client.t) (r : Request) (st : State) :
  ∃ c,
    log (state_of (dispatch ext g self r st)) = log st ++ [c]
    ∧ call_server c = Some (Client._server self)
    ∧ if collection_level r then
        kwarg "tenant" (call_kwargs c) = Some (VStr (Client.tenant self))
        ∧ kwarg "database" (call_kwargs c)
          = Some (VStr (Client.database self))
      else
        kwarg "tenant" (call_kwargs c) = None
        ∧ kwarg "database" (call_kwargs c) = None
        ∧ ∀ tenant' database',
            dispatch ext g
              {| Client.super := Client.super self;
                 Client.tenant := tenant';
                 Client.database := database';
                 Client._server := Client._server self |} r st
            = dispatch ext g self r st.
Proof.
  destruct (dispatch_call ext g self r) as (c & Hrun & Hserver & Hargs).
  exists c. rewrite Hrun, call_log. split; [done|]. split; [done|].
  destruct (collection_level r); [done|].
  destruct Hargs as (Htenant & Hdatabase & Hsame).
  repeat split; try done.
  intros tenant' database'. by rewrite Hsame.
Qed.

(** C7: [set_tenant] and [set_database] return at once, in the state they
    were called in, a client that differs in that one attribute only.  A
    request on collections made before the assignment was forwarded with
    the old value and stays so in the log; the same request made after it
    is forwarded with the new value. *)
Theorem setters_affect_later_calls_only (ext : External) (g : Globals)
    (self : Client.t) (new : string) (r1 r2 : Request) (st : State) :
  collection_level r1 = true →
  collection_level r2 = true →
  let st1 := state_of (dispatch ext g self r1 st) in
  let with_tenant :=
    {| Client.super := Client.super self; Client.tenant := new;
       Client.database := Client.database self;
       Client._server := Client._server self |} in
  let with_database :=
    {| Client.super := Client.super self;
       Client.tenant := Client.tenant self; Client.database := new;
       Client._server := Client._server self |} in
  Client.set_tenant self new st1 = Ok with_tenant st1
  ∧ Client.set_database self new st1 = Ok with_database st1
  ∧ ∃ c1,
      log st1 = log st ++ [c1]
      ∧ kwarg "tenant" (call_kwargs c1) = Some (VStr (Client.tenant self))
      ∧ kwarg "database" (call_kwargs c1)
        = Some (VStr (Client.database self))
      ∧ (∃ c2,
           log (state_of (dispatch ext g with_tenant r2 st1))
             = log st ++ [c1; c2]
           ∧ kwarg "tenant" (call_kwargs c2) = Some (VStr new)
           ∧ kwarg "database" (call_kwargs c2)
             = Some (VStr (Client.database self)))
      ∧ (∃ c2,
           log (state_of (dispatch ext g with_database r2 st1))
             = log st ++ [c1; c2]
           ∧ kwarg "tenant" (call_kwargs c2)
             = Some (VStr (Client.tenant self))
           ∧ kwarg "database" (call_kwargs c2) = Some (VStr new)).
Proof.
  intros Hr1 Hr2 st1 with_tenant with_database.
  split; [done|]. split; [done|].
  destruct (dispatch_call ext g self r1) as (c1 & Hrun1 & _ & Hargs1).
  rewrite Hr1 in Hargs1. destruct Hargs1 as [Htenant1 Hdatabase1].
  assert (Hlog1 : log st1 = log st ++ [c1]).
  { subst st1. by rewrite Hrun1, call_log. }
  exists c1. split; [done|]. split; [done|]. split; [done|]. split.
  - destruct (dispatch_call ext g with_tenant r2)
      as (c2 & Hrun2 & _ & Hargs2).
    rewrite Hr2 in Hargs2. destruct Hargs2 as [Htenant2 Hdatabase2].
    exists c2. rewrite Hrun2, call_log, Hlog1, <-(assoc_L (++)). done.
  - destruct (dispatch_call ext g with_database r2)
      as (c2 & Hrun2 & _ & Hargs2).
    rewrite Hr2 in Hargs2. destruct Hargs2 as [Htenant2 Hdatabase2].
    exists c2. rewrite Hrun2, call_log, Hlog1, <-(assoc_L (++)). done.
Qed.

(** C8, as the code has it: each of [create_collection], [get_collection]
    and [get_or_create_collection] makes one call on the client's server whose
    [embedding_function] argument is the caller's value when one is
    supplied, and otherwise the default of that method: a value fixed when
    the module is imported, the same for every client, every state and
    every call. *)
Theorem embedding_function_default_or_supplied (ext : External)
    (g : Globals) (self : Client.t) (st : State)
    (name : Value) (metadata get_or_create supplied : option Value) :
  (∃ kwargs,
     log (state_of (Client.create_collection ext g self name metadata
                      supplied get_or_create st))
       = log st ++ [ServerAPI_call (Client._server self)
                      "create_collection" kwargs]
     ∧ kwarg "embedding_function" kwargs
       = Some (default (create_collection__embedding_function g) supplied))
  ∧ (∃ kwargs,
       log (state_of (Client.get_collection ext g self name supplied st))
         = log st ++ [ServerAPI_call (Client._server self)
                        "get_collection" kwargs]
       ∧ kwarg "embedding_function" kwargs
         = Some (default (get_collection__embedding_function g) supplied))
  ∧ (∃ kwargs,
       log (state_of (Client.get_or_create_collection ext g self name
                        metadata supplied st))
         = log st ++ [ServerAPI_call (Client._server self)
                        "get_or_create_collection" kwargs]
       ∧ kwarg "embedding_function" kwargs
         = Some (default (get_or_create_collection__embedding_function g)
                   supplied)).
Proof.
  unfold Client.create_collection, Client.get_collection,
    Client.get_or_create_collection, Client.forward.
  repeat split; eexists; rewrite call_log; split; reflexivity.
Qed.

(** ** Constructions one after the other, and interleaved *)

(** A thread that is left alone for eight statements has done what a call
    of [SharedSystemClient.__init__] does. *)
Lemma run_thread_init ext s st :
  match SharedSystemClient.__init__ ext s st with
  | Ok self st' =>
      ∃ system,
        run_thread ext 8 (L35 s) st = (Returned self system, st')
        ∧ _identifer_to_system st' !! SharedSystemClient._identifier self
          = Some system
  | Raise e st' => run_thread ext 8 (L35 s) st = (Raised e, st')
  end.
Proof.
  unfold SharedSystemClient.__init__,
    SharedSystemClient._create_system_if_not_exists,
    SharedSystemClient.System__init__.
  unfold_M. simpl.
  destruct (SharedSystemClient._get_identifier_from_settings s)
    as [e|identifier]; simpl; [done|].
  destruct (_identifer_to_system st !! identifier) as [prev|] eqn:Hreg;
    simpl.
  - unfold_M. rewrite Hreg. simpl.
    case_bool_decide; simpl; [done|].
    unfold_M. rewrite Hreg. simpl. eauto.
  - repeat (unfold continue, SharedSystemClient.System__init__; unfold_M;
            simpl;
            try match goal with
            | |- context [respond ext ?l ?c] =>
                destruct (respond ext l c); simpl
            end);
      try done.
    rewrite lookup_insert_eq. simpl.
    eexists. split; [done|]. simpl. by rewrite lookup_insert_eq.
Qed.

Lemma init_registered ext s st identifier system :
  SharedSystemClient._get_identifier_from_settings s = inr identifier →
  _identifer_to_system st !! identifier = Some system →
  settings system = s →
  SharedSystemClient.__init__ ext s st
  = Ok {| SharedSystemClient._identifier := identifier |} st.
Proof.
  intros Hid Hreg Hs. unfold SharedSystemClient.__init__. unfold_M.
  rewrite Hid. simpl.
  rewrite (create_registered _ _ _ _ _ Hreg).
  by case_decide.
Qed.

Lemma construct_all_registered ext n s st identifier system :
  SharedSystemClient._get_identifier_from_settings s = inr identifier →
  _identifer_to_system st !! identifier = Some system →
  settings system = s →
  construct_all ext n s st
  = Ok (replicate n {| SharedSystemClient._identifier := identifier |}) st.
Proof.
  intros Hid Hreg Hs. induction n as [|n IH]; simpl; [done|].
  unfold_M. rewrite (init_registered _ _ _ _ _ Hid Hreg Hs).
  by rewrite IH.
Qed.

(** C9, as the code has it: [n + 1] constructions with the same settings
    under an identifier that is not registered, each run to its end before
    the next starts, construct one system, and every proxy refers to it. *)
Theorem sequential_constructions_build_once (ext : External) (n : nat)
    (s : Settings) (st st' : State) (identifier : string)
    (proxies : list SharedSystemClient.t) :
  SharedSystemClient._get_identifier_from_settings s = inr identifier →
  _identifer_to_system st !! identifier = None →
  construct_all ext (S n) s st = Ok proxies st' →
  length proxies = S n
  ∧ constructions st' = S (constructions st)
  ∧ allocated st' = S (allocated st)
  ∧ ∀ self, self ∈ proxies →
      SharedSystemClient._system self st'
      = Ok {| oid := allocated st; settings := s |} st'.
Proof.
  intros Hid Hreg Hrun. simpl in Hrun. invert_Ok.
  match goal with H : SharedSystemClient.__init__ _ _ _ = Ok ?self ?st1 |- _ =>
    rename self into first; rename st1 into st1';
    pose proof (init_Ok _ _ _ _ _ H) as (Hfirst & system & Hsys) end.
  assert (SharedSystemClient._identifier first = identifier) as Hname
    by congruence.
  rewrite Hname in Hsys.
  destruct Hsys as (Hreg1 & Hs & _ & Hnew).
  destruct (Hnew Hreg) as (Hoid & Halloc & Hcount).
  assert (system = {| oid := allocated st; settings := s |}) as ->.
  { destruct system; simpl in *; congruence. }
  match goal with H : construct_all _ _ _ _ = Ok _ _ |- _ =>
    rewrite (construct_all_registered _ _ _ _ _ _ Hid Hreg1 Hs) in H;
    injection H as <- <- end.
  split; [simpl; by rewrite length_replicate|].
  split; [done|]. split; [done|].
  intros self Hself.
  assert (SharedSystemClient._identifier self = identifier) as Hself_id.
  { apply elem_of_cons in Hself as [->|Hself]; [done|].
    by apply elem_of_replicate in Hself as [-> _]. }
  unfold SharedSystemClient._system. rewrite Hself_id.
  by apply getitem_registered.
Qed.

(** C9, as stated, fails: nothing makes lines 42 to 44 a critical section.
    Two threads construct from the same, unused settings; both find the
    identifier absent at line 42 before either registers a system at line
    44.  [System(...)] is then called twice, and the two calls of
    [_create_system_if_not_exists] return two different systems. *)
Lemma interleaved_constructions_build_twice :
  let outcome :=
    run_schedule reliable racing_schedule
      [L35 sample_settings; L35 sample_settings] initial_state in
  _identifer_to_system initial_state !! "ephemeral" = None
  ∧ forallb finished outcome.1 = true
  ∧ constructions outcome.2 = 2
  ∧ allocated outcome.2 = 2
  ∧ thread_system <$> outcome.1
    = [Some {| oid := 0; settings := sample_settings |};
       Some {| oid := 1; settings := sample_settings |}].
Proof. vm_compute. repeat split. Qed.

Lemma sequential_constructions_build_once_witness :
  let st' := state_of (construct_all reliable 3 sample_settings initial_state) in
  length (replicate 3 sample_shared) = 3
  ∧ constructions st' = S (constructions initial_state)
  ∧ allocated st' = S (allocated initial_state)
  ∧ ∀ self, self ∈ replicate 3 sample_shared →
      SharedSystemClient._system self st'
      = Ok {| oid := allocated initial_state; settings := sample_settings |}
          st'.
Proof.
  apply (sequential_constructions_build_once reliable 2 sample_settings
           initial_state _ "ephemeral" (replicate 3 sample_shared));
    vm_compute; reflexivity.
Defined.

(** C4, as stated, fails: with collaborators of which only [capture]
    raises, the inherited constructor returns and [_system] finds the
    system, yet [Client.__init__] raises what [capture] raised and returns
    no client.  With collaborators that differ only in that [capture]
    returns, the same construction returns. *)
Lemma telemetry_failure_fails_construction :
  let st1 :=
    state_of (SharedSystemClient.__init__ failing_telemetry sample_settings
                initial_state) in
  SharedSystemClient.__init__ failing_telemetry sample_settings initial_state
    = Ok sample_shared st1
  ∧ SharedSystemClient._system sample_shared st1 = Ok sample_system st1
  ∧ raised (Client.__init__ failing_telemetry None None sample_settings
              initial_state) = Some (BackendError 1)
  ∧ returned (Client.__init__ failing_telemetry None None sample_settings
                initial_state) = None
  ∧ returned (Client.__init__ reliable None None sample_settings
                initial_state) = Some sample_client.
Proof. vm_compute. repeat split. Qed.

Lemma telemetry_outcome_decides_construction_witness :
  let st1 :=
    state_of (SharedSystemClient.__init__ failing_telemetry sample_settings
                initial_state) in
  Client.__init__ failing_telemetry None None sample_settings initial_state
  = Raise (BackendError 1)
      (append_log (Telemetry_capture 0 "ClientStartEvent")
         (append_log (System_instance 0 Telemetry)
            (append_log (System_instance 0 ServerAPI) st1))).
Proof.
  intros st1.
  exact (proj2 (telemetry_outcome_decides_construction failing_telemetry
                  None None sample_settings initial_state st1 sample_shared
                  sample_system VNone VNone
                  eq_refl eq_refl eq_refl eq_refl)).
Defined.

(** C6, as stated, fails: a client is constructed, the cache is cleared,
    and [_system] of the client raises KeyError. *)
Lemma system_lost_after_clear :
  let st1 :=
    state_of (construct reliable (NewClient None None sample_settings)
                initial_state) in
  construct reliable (NewClient None None sample_settings) initial_state
    = Ok (HClient sample_client) st1
  ∧ handle_system (HClient sample_client)
      (execs reliable [ClearSystemCache] st1)
    = Raise (KeyError "ephemeral") (execs reliable [ClearSystemCache] st1).
Proof. vm_compute. repeat split. Qed.

Lemma system_available_until_clear_witness :
  let st1 :=
    state_of (construct reliable (NewClient None None sample_settings)
                initial_state) in
  ∃ system,
    handle_system (HClient sample_client) st1 = Ok system st1
    ∧ (∀ ops, no_clear ops →
         handle_system (HClient sample_client) (execs reliable ops st1)
         = Ok system (execs reliable ops st1))
    ∧ (∀ st',
         handle_system (HClient sample_client)
           (state_of (SharedSystemClient.clear_system_cache st'))
         = Raise (KeyError "ephemeral")
             (state_of (SharedSystemClient.clear_system_cache st'))).
Proof.
  apply (system_available_until_clear reliable
           (NewClient None None sample_settings) initial_state).
  vm_compute. reflexivity.
Defined.

Lemma registered_identifier_checked_witness :
  SharedSystemClient.__init__ reliable (local_settings false "/tmp/other")
    sample_state
  = Raise (SettingsConflictError "ephemeral") sample_state.
Proof.
  exact (proj2 (registered_identifier_checked reliable "ephemeral"
                  (local_settings false "/tmp/other") sample_state
                  sample_system eq_refl) eq_refl).
Defined.

Lemma equal_settings_share_system_witness :
  let k1 := NewClient None None sample_settings in
  let k2 := NewAdminClient sample_settings in
  let ops := [CallMethod 0 "heartbeat" []; Construct k1] in
  let st1 := state_of (construct reliable k1 initial_state) in
  let st2 := state_of (construct reliable k2 (execs reliable ops st1)) in
  (∀ st', handle_system (HClient sample_client) st'
          = handle_system (HAdmin sample_admin) st')
  ∧ ∃ system,
      handle_system (HClient sample_client) st2 = Ok system st2
      ∧ handle_system (HAdmin sample_admin) st2 = Ok system st2.
Proof.
  intros k1 k2 ops st1 st2.
  destruct (equal_settings_share_system reliable k1 k2 ops initial_state
              st1 st2 (HClient sample_client) (HAdmin sample_admin))
    as (Hsame & (system & H1 & H2 & _) & _);
    [vm_compute; reflexivity..|].
  split; [exact Hsame|]. exists system. by split.
Defined.

Lemma clear_then_construct_is_new_witness :
  ∃ h st',
    construct reliable (NewSharedSystemClient sample_settings)
      (set_registry ∅ sample_state) = Ok h st'.
Proof.
  destruct (clear_then_construct_is_new reliable
              (NewSharedSystemClient sample_settings) sample_state)
    as (_ & _ & _ & _ & _ & Hreturns).
  apply (Hreturns (λ history c, ex_intro _ VNone eq_refl) "ephemeral").
  vm_compute. reflexivity.
Defined.

Lemma setters_affect_later_calls_only_witness :
  let st1 :=
    state_of (dispatch reliable sample_globals sample_client ListCollections
                initial_state) in
  Client.set_tenant sample_client "other" st1
  = Ok {| Client.super := sample_shared; Client.tenant := "other";
          Client.database := "default"; Client._server := 0 |} st1.
Proof.
  intros st1.
  exact (proj1 (setters_affect_later_calls_only reliable sample_globals
                  sample_client "other" ListCollections
                  (DeleteCollection (VStr "docs")) initial_state
                  eq_refl eq_refl)).
Defined.

(** The scenario of C7 on sample values: a listing before [set_tenant]
    carries the old tenant, a deletion after it the new one. *)
Example tenant_change_in_the_log :
  log (state_of
         ((dispatch reliable sample_globals sample_client ListCollections;;
           self ← Client.set_tenant sample_client "other";
           dispatch reliable sample_globals self
             (DeleteCollection (VStr "docs"))) initial_state))
  = [ServerAPI_call 0 "list_collections"
       [("tenant", VStr "default"); ("database", VStr "default")];
     ServerAPI_call 0 "delete_collection"
       [("name", VStr "docs"); ("tenant", VStr "other");
        ("database", VStr "default")]].
Proof. reflexivity. Qed.

(** * Further properties of the module *)

(** ** Constructions that fail *)

Lemma init_resolution_error ext s st e :
  SharedSystemClient._get_identifier_from_settings s = inl e →
  SharedSystemClient.__init__ ext s st = Raise e st.
Proof.
  intros Hid. unfold SharedSystemClient.__init__. unfold_M. by rewrite Hid.
Qed.

(** The three constructors start with the inherited one; what it raises,
    they raise. *)
Lemma construct_base_raise ext k st e st' :
  SharedSystemClient.__init__ ext (constructor_settings k) st = Raise e st' →
  construct ext k st = Raise e st'.
Proof.
  destruct k; simpl; intros Hbase;
    unfold Client.__init__, AdminClient.__init__; unfold_M;
    by rewrite Hbase.
Qed.

(** X1: once a construction from some settings has returned, and as long
    as the cache is not cleared, a construction (of any of the three
    classes) from different settings that resolve to the same identifier
    raises the settings-conflict ValueError, and leaves the state as it
    found it: nothing is constructed, started or logged. *)
Theorem conflicting_settings_rejected (ext : External)
    (k1 k2 : Constructor) (ops : list Op) (st st1 : State) (h1 : Handle) :
  construct ext k1 st = Ok h1 st1 →
  no_clear ops →
  constructor_settings k2 ≠ constructor_settings k1 →
  SharedSystemClient._get_identifier_from_settings (constructor_settings k2)
    = inr (SharedSystemClient._identifier (handle_shared h1)) →
  construct ext k2 (execs ext ops st1)
  = Raise
      (SettingsConflictError
         (SharedSystemClient._identifier (handle_shared h1)))
      (execs ext ops st1).
Proof.
  intros Hrun Hops Hdiff Hid.
  apply construct_Ok in Hrun as (_ & system & (Hreg & Hs & _) & _).
  pose proof (extends_lookup _ _ _ _ (extends_execs ext ops st1 Hops) Hreg)
    as Hkept.
  apply construct_base_raise.
  unfold SharedSystemClient.__init__. unfold_M. rewrite Hid. simpl.
  rewrite (create_registered _ _ _ _ _ Hkept).
  case_decide; [congruence|done].
Qed.

Lemma conflicting_settings_rejected_witness :
  let k1 := NewClient None None sample_settings in
  let k2 :=
    NewAdminClient
      (with_option "anonymized_telemetry" (PyStr "False") sample_settings) in
  let st1 := state_of (construct reliable k1 initial_state) in
  let ops := [CallMethod 0 "heartbeat" []] in
  construct reliable k2 (execs reliable ops st1)
  = Raise (SettingsConflictError "ephemeral") (execs reliable ops st1).
Proof.
  intros k1 k2 st1 ops.
  apply (conflicting_settings_rejected reliable k1 k2 ops initial_state st1
           (HClient sample_client)); vm_compute; try reflexivity.
  intros Heq. discriminate Heq.
Defined.

(** X2: a construction that cannot resolve its identifier raises the
    resolution error in the state it was called in, before any collaborator
    is called; and when the identifier is not registered and [System(...)]
    itself raises, the exception propagates with nothing registered and no
    object counted: only the call is in the log. *)
Theorem construction_fails_before_registration (ext : External)
    (k : Constructor) (st : State) :
  (∀ e,
     SharedSystemClient._get_identifier_from_settings
       (constructor_settings k) = inl e →
     construct ext k st = Raise e st)
  ∧ (∀ identifier e,
       SharedSystemClient._get_identifier_from_settings
         (constructor_settings k) = inr identifier →
       _identifer_to_system st !! identifier = None →
       respond ext (log st) (System_new (constructor_settings k)) = inl e →
       construct ext k st
       = Raise e (append_log (System_new (constructor_settings k)) st)).
Proof.
  split.
  - intros e Hid. apply construct_base_raise.
    by apply init_resolution_error.
  - intros identifier e Hid Hreg Hnew. apply construct_base_raise.
    unfold SharedSystemClient.__init__,
      SharedSystemClient._create_system_if_not_exists,
      SharedSystemClient.System__init__.
    unfold_M. rewrite Hid. simpl. rewrite Hreg, Hnew. done.
Qed.

Lemma construction_fails_before_registration_witness :
  construct reliable (NewClient None None unsupported_settings) sample_state
  = Raise (UnsupportedImplementationError "chromadb.api.local.LocalAPI")
      sample_state.
Proof.
  apply (proj1 (construction_fails_before_registration reliable
                  (NewClient None None unsupported_settings) sample_state)).
  reflexivity.
Defined.

(** X3: the system is registered before its components are resolved and
    before it is started.  So when the first construction under an
    identifier fails after [System(...)] has returned, the new system is
    registered all the same, and the next construction from the same
    settings returns at once, in an unchanged state: [instance] and [start]
    are not called again for that system. *)
Theorem failed_start_stays_registered (ext : External) (s : Settings)
    (st st' : State) (identifier : string) (v : Value) (e : Exn) :
  SharedSystemClient._get_identifier_from_settings s = inr identifier →
  _identifer_to_system st !! identifier = None →
  respond ext (log st) (System_new s) = inr v →
  SharedSystemClient.__init__ ext s st = Raise e st' →
  _identifer_to_system st'
    = <[identifier := {| oid := allocated st; settings := s |}]>
        (_identifer_to_system st)
  ∧ allocated st' = S (allocated st)
  ∧ SharedSystemClient.__init__ ext s st'
    = Ok {| SharedSystemClient._identifier := identifier |} st'.
Proof.
  intros Hid Hreg Hnew Hrun.
  assert (Hshape :
    _identifer_to_system st'
      = <[identifier := {| oid := allocated st; settings := s |}]>
          (_identifer_to_system st)
    ∧ allocated st' = S (allocated st)).
  { revert Hrun.
    unfold SharedSystemClient.__init__,
      SharedSystemClient._create_system_if_not_exists,
      SharedSystemClient.System__init__.
    unfold_M. rewrite Hid. simpl. rewrite Hreg, Hnew. simpl.
    repeat match goal with
    | |- context [respond ext ?l ?c] => destruct (respond ext l c); simpl
    end;
      try (by intros [= <- <-]).
    by rewrite lookup_insert_eq. }
  destruct Hshape as [Hreg' Halloc]. split; [done|]. split; [done|].
  apply (init_registered _ _ _ _ {| oid := allocated st; settings := s |});
    [done| |done].
  rewrite Hreg'. by apply lookup_insert_eq.
Qed.

Lemma failed_start_stays_registered_witness :
  let st' :=
    state_of (SharedSystemClient.__init__ failing_start sample_settings
                initial_state) in
  _identifer_to_system st' = {[ "ephemeral" := sample_system ]}
  ∧ allocated st' = 1
  ∧ SharedSystemClient.__init__ failing_start sample_settings st'
    = Ok sample_shared st'.
Proof.
  intros st'.
  destruct (failed_start_stays_registered failing_start sample_settings
              initial_state st' "ephemeral" VNone (BackendError 2))
    as (Hreg & Halloc & Hnext); [vm_compute; reflexivity..|].
  split; [|by split].
  rewrite Hreg. reflexivity.
Defined.

(** ** The registry in the states a program reaches *)

(** What a call of [_create_system_if_not_exists] leaves of the registry
    and of the count of objects, whatever its outcome. *)
Lemma create_state ext identifier s st :
  let st' :=
    state_of (SharedSystemClient._create_system_if_not_exists
                ext identifier s st) in
  (_identifer_to_system st' = _identifer_to_system st
   ∧ allocated st' = allocated st)
  ∨ (_identifer_to_system st !! identifier = None
     ∧ _identifer_to_system st'
       = <[identifier := {| oid := allocated st; settings := s |}]>
           (_identifer_to_system st)
     ∧ allocated st' = S (allocated st)).
Proof.
  destruct (_identifer_to_system st !! identifier) as [prev|] eqn:Hreg.
  { rewrite (create_registered _ _ _ _ _ Hreg). left. by case_decide. }
  unfold SharedSystemClient._create_system_if_not_exists,
    SharedSystemClient.System__init__.
  unfold_M. rewrite Hreg. simpl.
  destruct (respond ext (log st) (System_new s)); simpl; [by left|].
  right. split; [done|].
  repeat match goal with
  | |- context [respond ext ?l ?c] => destruct (respond ext l c); simpl
  end; try done.
  by rewrite lookup_insert_eq.
Qed.

Lemma registry_distinct_call ext c :
  keeps (λ st, registry_ok st ∧ registry_distinct st) (call ext c).
Proof.
  intros st [Hok Hdistinct]. split; [by apply registry_ok_call|].
  unfold call. by destruct (respond ext (log st) c).
Qed.

Lemma registry_distinct_init ext s :
  keeps (λ st, registry_ok st ∧ registry_distinct st)
    (SharedSystemClient.__init__ ext s).
Proof.
  intros st [Hok Hdistinct]. split; [by apply registry_ok_init|].
  unfold SharedSystemClient.__init__. unfold_M.
  destruct (SharedSystemClient._get_identifier_from_settings s)
    as [e|identifier] eqn:Hid; simpl; [done|].
  pose proof (create_state ext identifier s st) as Hshape.
  destruct (SharedSystemClient._create_system_if_not_exists _ _ _ _)
    as [system st'|e st']; simpl in *.
  - destruct Hshape as [[Hreg _]|(Habsent & Hreg & _)];
      intros i j si sj; rewrite Hreg; [by apply Hdistinct|].
    rewrite !lookup_insert.
    repeat case_decide; subst; try done.
    + intros [= <-] Hj Hoid. destruct (Hok _ _ Hj). simpl in *. lia.
    + intros Hi [= <-] Hoid. destruct (Hok _ _ Hi). simpl in *. lia.
    + by apply Hdistinct.
  - destruct Hshape as [[Hreg _]|(Habsent & Hreg & _)];
      intros i j si sj; rewrite Hreg; [by apply Hdistinct|].
    rewrite !lookup_insert.
    repeat case_decide; subst; try done.
    + intros [= <-] Hj Hoid. destruct (Hok _ _ Hj). simpl in *. lia.
    + intros Hi [= <-] Hoid. destruct (Hok _ _ Hi). simpl in *. lia.
    + by apply Hdistinct.
Qed.

Lemma registry_distinct_construct ext k :
  keeps (λ st, registry_ok st ∧ registry_distinct st) (construct ext k).
Proof.
  destruct k; simpl;
    unfold Client.__init__, AdminClient.__init__,
      SharedSystemClient._system;
    repeat first
      [ apply keeps_ret | apply registry_distinct_init
      | apply registry_distinct_call | apply keeps_getitem
      | apply keeps_bind; [|intros ?] ].
Qed.

(** X4: in every state that a program reaches from the start, by
    constructions (returning or not), clears and calls through proxies,
    every registered system has been constructed, is registered under the
    identifier its own settings resolve to, and is registered under that
    identifier only. *)
Theorem reachable_registry_consistent (ext : External) (ops : list Op) :
  registry_ok (execs ext ops initial_state)
  ∧ registry_distinct (execs ext ops initial_state).
Proof.
  assert (Hstart : registry_ok initial_state
                   ∧ registry_distinct initial_state).
  { split; [apply registry_ok_initial|].
    intros i j si sj. simpl. by rewrite lookup_empty. }
  revert Hstart. generalize initial_state.
  induction ops as [|op ops IH]; intros st Hinv; simpl; [done|].
  apply IH. destruct op; simpl.
  - by apply registry_distinct_construct.
  - unfold SharedSystemClient.clear_system_cache, modify. simpl.
    split; intros ?; intros; simpl in *;
      by rewrite lookup_empty in *.
  - by apply registry_distinct_call.
  - by apply registry_distinct_call.
Qed.

(** Objects are never forgotten and the log is never cut, with or without
    clears. *)
Lemma grows_execs ext ops st :
  allocated st ≤ allocated (execs ext ops st)
  ∧ log st `prefix_of` log (execs ext ops st).
Proof.
  revert st. induction ops as [|op ops IH]; intros st; simpl; [done|].
  destruct (IH (exec ext op st)) as [Halloc Hlog].
  assert (Hstep : allocated st ≤ allocated (exec ext op st)
                  ∧ log st `prefix_of` log (exec ext op st)).
  { destruct (is_clear op) eqn:Hop.
    - by destruct op.
    - by destruct (extends_exec ext op st Hop) as (_ & ? & ?). }
  destruct Hstep. split; [lia|by etrans].
Qed.

(** X5: whatever a program does, the number of systems constructed never
    decreases and the log of calls is only extended; and as long as it does
    not clear the cache, every registration stays: the module has no other
    way of removing or replacing a registered system. *)
Theorem registrations_stay_until_clear (ext : External) (ops : list Op)
    (st : State) :
  allocated st ≤ allocated (execs ext ops st)
  ∧ log st `prefix_of` log (execs ext ops st)
  ∧ (no_clear ops →
     ∀ identifier system,
       _identifer_to_system st !! identifier = Some system →
       _identifer_to_system (execs ext ops st) !! identifier = Some system).
Proof.
  destruct (grows_execs ext ops st) as [Halloc Hlog].
  split; [done|]. split; [done|].
  intros Hops identifier system.
  apply extends_lookup. by apply extends_execs.
Qed.

Lemma registrations_stay_until_clear_witness :
  let ops :=
    [Construct (NewAdminClient (local_settings true "/tmp/x"));
     Construct (NewClient None None unsupported_settings);
     CallMethod 0 "reset" []] in
  _identifer_to_system (execs reliable ops sample_state) !! "ephemeral"
  = Some sample_system.
Proof.
  intros ops.
  apply (proj2 (proj2 (registrations_stay_until_clear reliable ops
                         sample_state)));
    vm_compute; reflexivity.
Defined.

(** ** A client that outlives a clear *)

(** X6: a Client keeps in [_server] the component of the system it was
    constructed on, while its [_system] property looks the identifier up
    again.  If the cache is cleared and a handle is then constructed from
    the same settings, the old client's [_system] is the new system, but
    its [_server], to which all its methods forward, still names the old
    one, and differs from the [_server] of the new handle. *)
Theorem stale_server_after_clear (ext : External)
    (tenant database : option string) (s : Settings) (k2 : Constructor)
    (ops : list Op) (st st1 st3 : State) (c : Client.t) (h2 : Handle) :
  registry_ok st →
  construct ext (NewClient tenant database s) st = Ok (HClient c) st1 →
  constructor_settings k2 = s →
  construct ext k2
    (state_of (SharedSystemClient.clear_system_cache (execs ext ops st1)))
    = Ok h2 st3 →
  ∃ system,
    Client._system c st3 = Ok system st3
    ∧ handle_system h2 st3 = Ok system st3
    ∧ oid system ≠ Client._server c
    ∧ ∀ server2, handle_server h2 = Some server2 →
        server2 = oid system ∧ server2 ≠ Client._server c.
Proof.
  intros Hok Hrun1 Hsettings Hrun2.
  apply construct_Ok in Hrun1 as (Hid1 & system1 & Hsys1 & Hserver1).
  apply construct_Ok in Hrun2 as (Hid2 & system2 & Hsys2 & Hserver2).
  simpl in Hid1, Hsys1, Hserver1. rewrite Hsettings in Hid2, Hsys2.
  assert (Hid : SharedSystemClient._identifier (Client.super c)
                = SharedSystemClient._identifier (handle_shared h2))
    by congruence.
  assert (Hold : oid system1 < allocated st1).
  { destruct Hsys1 as (_ & _ & Hfound & Hnew).
    destruct (_identifer_to_system st
                !! SharedSystemClient._identifier (Client.super c))
      as [prev|] eqn:Hreg.
    - destruct (Hfound _ eq_refl) as (-> & _ & -> & _).
      by destruct (Hok _ _ Hreg).
    - destruct (Hnew eq_refl) as (-> & -> & _). lia. }
  assert (Hnew : oid system2 = allocated (execs ext ops st1)).
  { destruct Hsys2 as (_ & _ & _ & Hnew).
    by destruct Hnew as (-> & _); [by apply lookup_empty|]. }
  pose proof (proj1 (grows_execs ext ops st1)) as Hgrow.
  assert (Hserver : Client._server c = oid system1)
    by by apply Hserver1.
  exists system2. destruct Hsys2 as (Hreg2 & _).
  split.
  { unfold Client._system, SharedSystemClient._system. rewrite Hid.
    by apply getitem_registered. }
  split; [by apply handle_system_registered|].
  split; [lia|].
  intros server2 Hserver2'. rewrite (Hserver2 _ Hserver2'). split; [done|lia].
Qed.

Lemma stale_server_after_clear_witness :
  let k := NewClient None None sample_settings in
  let st1 := state_of (construct reliable k initial_state) in
  let st2 :=
    state_of (SharedSystemClient.clear_system_cache
                (execs reliable [] st1)) in
  let st3 := state_of (construct reliable k st2) in
  ∃ system,
    Client._system sample_client st3 = Ok system st3
    ∧ oid system ≠ Client._server sample_client.
Proof.
  intros k st1 st2 st3.
  destruct (stale_server_after_clear reliable None None sample_settings k
              [] initial_state st1 st3 sample_client
              (HClient
                 {| Client.super := sample_shared;
                    Client.tenant := "default";
                    Client.database := "default";
                    Client._server := 1 |}))
    as (system & Hsystem & _ & Hstale & _);
    [apply registry_ok_initial | vm_compute; reflexivity..|].
  exists system. by split.
Defined.

(** ** Calls through a proxy *)

(** X7: a method of a Client makes one call on the client's server and
    nothing else: it returns the value the server returned and raises the
    exception the server raised, unchanged, without a second attempt, and
    the registry and the count of systems are as before.  The same holds
    for [AdminClient.create_database], whose [tenant] argument is the
    caller's or, when omitted, [DEFAULT_TENANT]. *)
Theorem proxy_calls_pass_through (ext : External) (g : Globals)
    (self : Client.t) (admin : AdminClient.t) (r : Request)
    (name : Value) (tenant : option Value) (st : State) :
  (∃ c,
     call_server c = Some (Client._server self)
     ∧ dispatch ext g self r st
       = match respond ext (log st) c with
         | inl e => Raise e (append_log c st)
         | inr v => Ok v (append_log c st)
         end)
  ∧ (∃ kwargs,
       kwarg "name" kwargs = Some name
       ∧ kwarg "tenant" kwargs
         = Some (default (VStr (DEFAULT_TENANT g)) tenant)
       ∧ kwarg "database" kwargs = None
       ∧ AdminClient.create_database ext g admin name tenant st
         = let c :=
             ServerAPI_call (AdminClient._server admin) "create_database"
               kwargs in
           match respond ext (log st) c with
           | inl e => Raise e (append_log c st)
           | inr v => Ok v (append_log c st)
           end).
Proof.
  split.
  - destruct (dispatch_call ext g self r) as (c & Hrun & Hserver & _).
    exists c. split; [done|]. by rewrite Hrun.
  - eexists. repeat split; reflexivity.
Qed.

(** ** Constructions on a system that is registered *)

(** X8: when the identifier of the settings is registered with these very
    settings, a construction constructs and starts nothing.
    [SharedSystemClient] returns in the state it found; [AdminClient]
    resolves the server component, one call; [Client] resolves the server
    and the telemetry component and captures one start event, three calls,
    and has the tenant and the database given, or "default".  The handles
    name the registered system. *)
Theorem construction_on_registered_system (ext : External)
    (tenant database : option string) (s : Settings) (st : State)
    (identifier : string) (system : System) :
  SharedSystemClient._get_identifier_from_settings s = inr identifier →
  _identifer_to_system st !! identifier = Some system →
  settings system = s →
  let base := {| SharedSystemClient._identifier := identifier |} in
  let resolve_server := System_instance (oid system) ServerAPI in
  let resolve_telemetry := System_instance (oid system) Telemetry in
  let capture := Telemetry_capture (oid system) "ClientStartEvent" in
  SharedSystemClient.__init__ ext s st = Ok base st
  ∧ (∀ self st',
       AdminClient.__init__ ext s st = Ok self st' →
       st' = append_log resolve_server st
       ∧ self = {| AdminClient.super := base;
                   AdminClient._server := oid system |})
  ∧ (∀ self st',
       Client.__init__ ext tenant database s st = Ok self st' →
       st' = append_log capture
               (append_log resolve_telemetry (append_log resolve_server st))
       ∧ self = {| Client.super := base;
                   Client.tenant := default "default" tenant;
                   Client.database := default "default" database;
                   Client._server := oid system |})
  ∧ (never_raises ext →
     ∃ self st', Client.__init__ ext tenant database s st = Ok self st').
Proof.
  intros Hid Hreg Hs base resolve_server resolve_telemetry capture.
  pose proof (init_registered ext s st identifier system Hid Hreg Hs)
    as Hbase.
  split; [done|].
  split; [|split].
  - intros self st'.
    unfold AdminClient.__init__, SharedSystemClient._system. unfold_M.
    rewrite Hbase. simpl. rewrite Hreg. simpl.
    destruct (respond ext (log st) _); by intros [= <- <-].
  - intros self st'.
    unfold Client.__init__, SharedSystemClient._system. unfold_M.
    rewrite Hbase. simpl. rewrite Hreg. simpl.
    destruct (respond ext (log st) _); simpl; [done|].
    rewrite Hreg. simpl.
    destruct (respond ext (log st ++ _) _); simpl; [done|].
    destruct (respond ext _ _); by intros [= <- <-].
  - intros Hext.
    unfold Client.__init__, SharedSystemClient._system. unfold_M.
    rewrite Hbase. simpl. rewrite Hreg. simpl.
    destruct (Hext (log st) (System_instance (oid system) ServerAPI))
      as [? ->]. simpl. rewrite Hreg. simpl.
    repeat match goal with
    | |- context [respond ext ?l ?c] =>
        destruct (Hext l c) as [? ->]; simpl
    end.
    eauto.
Qed.

Lemma construction_on_registered_system_witness :
  SharedSystemClient.__init__ reliable sample_settings sample_state
  = Ok sample_shared sample_state.
Proof.
  exact (proj1 (construction_on_registered_system reliable None None
                  sample_settings sample_state "ephemeral" sample_system
                  eq_refl eq_refl eq_refl)).
Defined.

(** ** Start events *)

Lemma captures_append c st :
  captures (append_log c st)
  = captures st + if is_Telemetry_capture c then 1 else 0.
Proof.
  unfold captures. simpl. rewrite filter_app, length_app.
  f_equal. rewrite filter_cons, filter_nil.
  destruct (is_Telemetry_capture c); by case_decide.
Qed.

Lemma captures_call ext c n :
  is_Telemetry_capture c = false →
  keeps (λ st, captures st = n) (call ext c).
Proof.
  intros Hc st Hn. unfold call.
  destruct (respond ext (log st) c); simpl;
    rewrite captures_append, Hc; lia.
Qed.

Lemma captures_init ext s n :
  keeps (λ st, captures st = n) (SharedSystemClient.__init__ ext s).
Proof.
  unfold SharedSystemClient.__init__,
    SharedSystemClient._create_system_if_not_exists,
    SharedSystemClient.System__init__.
  apply keeps_bind; [apply keeps_lift|]. intros identifier.
  apply keeps_bind; [|intros ?; apply keeps_ret].
  intros st Hn. unfold_M.
  destruct (_identifer_to_system st !! identifier) as [prev|] eqn:Hreg.
  { case_bool_decide; simpl; [done|]. by rewrite Hreg. }
  simpl.
  repeat match goal with
  | |- context [respond ext ?l ?c] => destruct (respond ext l c); simpl
  end;
    rewrite ?lookup_insert_eq; simpl;
    rewrite ?captures_append; simpl;
    change (captures (set_registry _ (set_allocated _ ?x)))
      with (captures x);
    rewrite ?captures_append; simpl; lia.
Qed.

Lemma captures_other ext k n :
  (if k is NewClient _ _ _ then False else True) →
  keeps (λ st, captures st = n) (construct ext k).
Proof.
  destruct k; simpl; [intros _|done|intros _];
    unfold AdminClient.__init__, SharedSystemClient._system;
    repeat first
      [ apply keeps_ret | apply keeps_getitem | apply captures_init
      | apply captures_call; reflexivity
      | apply keeps_bind; [|intros ?] ].
Qed.

(** X9: start events are captured by the construction of a Client and by
    nothing else.  A construction of a SharedSystemClient or of an
    AdminClient, returning or not, captures none, neither does a method of
    a Client; a Client construction that returns has captured exactly one,
    also when it shares a system that other clients already use. *)
Theorem one_start_event_per_client (ext : External) (g : Globals)
    (k : Constructor) (self : Client.t) (r : Request) (st : State) :
  (∀ s, k = NewSharedSystemClient s ∨ k = NewAdminClient s →
        captures (state_of (construct ext k st)) = captures st)
  ∧ (∀ tenant database s h st',
       k = NewClient tenant database s →
       construct ext k st = Ok h st' →
       captures st' = S (captures st))
  ∧ captures (state_of (dispatch ext g self r st)) = captures st.
Proof.
  split; [|split].
  - intros s [-> | ->].
    + by apply (captures_other ext (NewSharedSystemClient s) (captures st)).
    + by apply (captures_other ext (NewAdminClient s) (captures st)).
  - intros tenant database s h st' -> Hrun. simpl in Hrun.
    unfold Client.__init__ in Hrun. invert_Ok.
    match goal with H : SharedSystemClient.__init__ _ _ _ = Ok _ ?st1 |- _ =>
      pose proof (captures_init ext s (captures st) st eq_refl) as Hbase;
      rewrite H in Hbase; simpl in Hbase end.
    rewrite !captures_append. simpl. lia.
  - destruct (dispatch_call ext g self r) as (c & Hrun & Hserver & _).
    rewrite Hrun.
    apply (captures_call ext c (captures st)); [|done].
    by destruct c.
Qed.

Lemma one_start_event_per_client_witness :
  captures
    (state_of (construct reliable (NewClient None None sample_settings)
                 sample_state))
  = S (captures sample_state).
Proof.
  apply (proj1 (proj2 (one_start_event_per_client reliable sample_globals
                         (NewClient None None sample_settings) sample_client
                         Heartbeat sample_state))
           None None sample_settings (HClient sample_client));
    vm_compute; reflexivity.
Defined.

(** ** The defaults of the three signatures *)

(** C8, as stated, fails: the signatures of [create_collection],
    [get_collection] and [get_or_create_collection] each contain their own
    expression [ef.DefaultEmbeddingFunction()], evaluated when that [def] is
    executed.  With the three results being three objects, one client that
    omits the embedding function in the three calls forwards three
    different defaults, so no single instance is substituted. *)
Lemma default_embedding_functions_differ :
  let forwarded (m : M Value) : option (option Value) :=
    (λ c, kwarg "embedding_function" (call_kwargs c))
      <$> last (log (state_of (m initial_state))) in
  let created :=
    forwarded (Client.create_collection reliable sample_globals
                 sample_client (VStr "docs") None None None) in
  let got :=
    forwarded (Client.get_collection reliable sample_globals sample_client
                 (VStr "docs") None) in
  let got_or_created :=
    forwarded (Client.get_or_create_collection reliable sample_globals
                 sample_client (VStr "docs") None None) in
  created = Some (Some (VObj 100))
  ∧ got = Some (Some (VObj 101))
  ∧ got_or_created = Some (Some (VObj 102))
  ∧ ¬ (∃ shared,
         created = Some (Some shared) ∧ got = Some (Some shared)
         ∧ got_or_created = Some (Some shared)).
Proof.
  vm_compute. repeat split.
  intros (shared & H1 & H2 & _). congruence.
Qed.
